(** * beartype: exception taxonomy, callable testers and hint test metadata

    A shallow embedding of

    - [beartype/roar.py]: the class hierarchy of beartype exceptions;
    - [beartype/_util/func/utilfunctest.py]: the callable testers
      ([is_func_async], [is_func_coro], [is_func_closure], ...) and the
      validators ([die_unless_func_python], ...);
    - [beartype_test/unit/data/hint/pep/data_hintpepmeta.py]: the
      [PepHintPithUnsatisfiedMetadata] record and its initialiser, and the
      initialisers of [PepHintMetadata] and [PepHintClassedMetadata];
    - [beartype/_data/func/datafunc.py]: the names of the binary dunder
      methods;

    together with the properties the specification states about them. *)

From Stdlib Require Import List Ascii String ZArith Bool Lia.
Import ListNotations.
Local Open Scope string_scope.

Set Warnings "-register-all".

(** ** Python results

    A Python call either returns a value or raises.  Only the exceptions
    that the embedded code can raise by itself are listed. *)

Inductive pyexc : Type :=
| AssertionError
| AttributeError
| TypeError.

Inductive result (A : Type) : Type :=
| Ok (a : A)
| Raise (e : pyexc).

Arguments Ok {A} a.
Arguments Raise {A} e.

Definition bind {A B : Type} (m : result A) (k : A -> result B) : result B :=
  match m with
  | Ok a => k a
  | Raise e => Raise e
  end.

Notation "x <- m ;; k" := (bind m (fun x => k))
  (at level 61, m at next level, right associativity).

(** The statement [assert cond, msg], with assertions enabled.  Messages of
    exceptions are not modelled. *)
Definition py_assert (cond : bool) : result unit :=
  if cond then Ok tt else Raise AssertionError.

(** [a or b] and [a and b] on booleans: the right operand is evaluated only
    when the left one does not decide the result. *)
Definition py_or (a : bool) (b : result bool) : result bool :=
  if a then Ok true else b.

Definition py_and (a : bool) (b : result bool) : result bool :=
  if a then b else Ok false.

(** ** Python values

    The objects that appear as piths, as regular expressions and as items of
    tuples in the embedded code. *)

Inductive pyval : Type :=
| PyNone
| PyBool (b : bool)
| PyInt (z : Z)
| PyStr (s : string)
| PyTuple (items : list pyval)
| PyList (items : list pyval).

(** [isinstance(v, tuple)] and [isinstance(v, str)]. *)
Definition isinstance_tuple (v : pyval) : bool :=
  match v with
  | PyTuple _ => true
  | _ => false
  end.

Definition isinstance_str (v : pyval) : bool :=
  match v with
  | PyStr _ => true
  | _ => false
  end.

(** The items produced by iterating over a value; iterating over a
    non-iterable raises [TypeError]. *)
Definition py_iter (v : pyval) : result (list pyval) :=
  match v with
  | PyTuple items => Ok items
  | PyList items => Ok items
  | PyStr s => Ok (map (fun ch => PyStr (String ch EmptyString))
                       (list_ascii_of_string s))
  | PyNone | PyBool _ | PyInt _ => Raise TypeError
  end.

(** [all(p(x) for x in v)]. *)
Definition py_all (p : pyval -> bool) (v : pyval) : result bool :=
  items <- py_iter v ;;
  Ok (forallb p items).

(** Structural equality of values, used to compare hints. *)
Fixpoint pyval_eqb (v w : pyval) {struct v} : bool :=
  let fix items_eqb (vs ws : list pyval) {struct vs} : bool :=
    match vs, ws with
    | [], [] => true
    | v' :: vs', w' :: ws' => pyval_eqb v' w' && items_eqb vs' ws'
    | _, _ => false
    end in
  match v, w with
  | PyNone, PyNone => true
  | PyBool a, PyBool b => Bool.eqb a b
  | PyInt a, PyInt b => Z.eqb a b
  | PyStr a, PyStr b => String.eqb a b
  | PyTuple vs, PyTuple ws => items_eqb vs ws
  | PyList vs, PyList ws => items_eqb vs ws
  | _, _ => false
  end.

(** ** [beartype.roar]: the exception hierarchy *)

Module Roar.

(** Every class named by a [class] statement of [roar.py], and the builtin
    classes those statements inherit from. *)
Inductive cls : Type :=
| object
| BaseException
| Exception
| Warning
| UserWarning
| BeartypeException
| BeartypeCaveException
| BeartypeCaveNoneTypeOrException
| BeartypeCaveNoneTypeOrKeyException
| BeartypeCaveNoneTypeOrMutabilityException
| BeartypeDecorException
| BeartypeDecorWrappeeException
| BeartypeDecorWrapperException
| BeartypeDecorHintException
| BeartypeDecorHintNonPepException
| BeartypeDecorHintPepException
| BeartypeDecorHintPepUnsupportedException
| BeartypeDecorHintPep484Exception
| BeartypeDecorParamException
| BeartypeDecorParamNameException
| BeartypeDecorPepException
| BeartypeDecorHintPep563Exception
| BeartypeCallException
| BeartypeCallCheckException
| BeartypeCallCheckUnavailableTypeException
| BeartypeCallCheckPepException
| BeartypeCallCheckPepParamException
| BeartypeCallCheckPepReturnException
| BeartypeCallCheckNonPepException
| BeartypeCallCheckNonPepParamException
| BeartypeCallCheckNonPepReturnException
| BeartypeWarning
| _BeartypeDecorBeartypistryException
| _BeartypeCallBeartypistryException
| _BeartypeUtilException
| _BeartypeUtilRaisePepException
| _BeartypeUtilRaisePepDesynchronizationException
| _BeartypeUtilCachedException
| _BeartypeUtilCachedCallableException
| _BeartypeUtilCachedFixedListException
| _BeartypeUtilCachedObjectTypedException.

Scheme Equality for cls.

(** The base class written in each [class] statement (every class of the
    module has exactly one); [object] has none. *)
Definition base (c : cls) : option cls :=
  match c with
  | object => None
  | BaseException => Some object
  | Exception => Some BaseException
  | Warning => Some Exception
  | UserWarning => Some Warning
  | BeartypeException => Some Exception
  | BeartypeCaveException => Some BeartypeException
  | BeartypeCaveNoneTypeOrException => Some BeartypeCaveException
  | BeartypeCaveNoneTypeOrKeyException => Some BeartypeCaveNoneTypeOrException
  | BeartypeCaveNoneTypeOrMutabilityException =>
      Some BeartypeCaveNoneTypeOrException
  | BeartypeDecorException => Some BeartypeException
  | BeartypeDecorWrappeeException => Some BeartypeDecorException
  | BeartypeDecorWrapperException => Some BeartypeDecorException
  | BeartypeDecorHintException => Some BeartypeDecorException
  | BeartypeDecorHintNonPepException => Some BeartypeDecorHintException
  | BeartypeDecorHintPepException => Some BeartypeDecorHintException
  | BeartypeDecorHintPepUnsupportedException =>
      Some BeartypeDecorHintPepException
  | BeartypeDecorHintPep484Exception => Some BeartypeDecorHintPepException
  | BeartypeDecorParamException => Some BeartypeDecorException
  | BeartypeDecorParamNameException => Some BeartypeDecorParamException
  | BeartypeDecorPepException => Some BeartypeDecorException
  | BeartypeDecorHintPep563Exception => Some BeartypeDecorPepException
  | BeartypeCallException => Some BeartypeException
  | BeartypeCallCheckException => Some BeartypeCallException
  | BeartypeCallCheckUnavailableTypeException =>
      Some BeartypeCallCheckException
  | BeartypeCallCheckPepException => Some BeartypeCallCheckException
  | BeartypeCallCheckPepParamException => Some BeartypeCallCheckPepException
  | BeartypeCallCheckPepReturnException => Some BeartypeCallCheckPepException
  | BeartypeCallCheckNonPepException => Some BeartypeCallCheckException
  | BeartypeCallCheckNonPepParamException =>
      Some BeartypeCallCheckNonPepException
  | BeartypeCallCheckNonPepReturnException =>
      Some BeartypeCallCheckNonPepException
  | BeartypeWarning => Some UserWarning
  | _BeartypeDecorBeartypistryException => Some BeartypeDecorException
  | _BeartypeCallBeartypistryException => Some BeartypeCallException
  | _BeartypeUtilException => Some BeartypeException
  | _BeartypeUtilRaisePepException => Some _BeartypeUtilException
  | _BeartypeUtilRaisePepDesynchronizationException =>
      Some _BeartypeUtilRaisePepException
  | _BeartypeUtilCachedException => Some _BeartypeUtilException
  | _BeartypeUtilCachedCallableException => Some _BeartypeUtilCachedException
  | _BeartypeUtilCachedFixedListException => Some _BeartypeUtilCachedException
  | _BeartypeUtilCachedObjectTypedException =>
      Some _BeartypeUtilCachedException
  end.

(** [True] for the classes whose [class] statement passes
    [metaclass=_ABCMeta]: the ones documented as abstract base classes.
    The other classes of the module are the concrete ones. *)
Definition is_abstract (c : cls) : bool :=
  match c with
  | BeartypeException
  | BeartypeCaveException
  | BeartypeCaveNoneTypeOrException
  | BeartypeDecorException
  | BeartypeDecorHintException
  | BeartypeDecorHintPepException
  | BeartypeDecorParamException
  | BeartypeDecorPepException
  | BeartypeCallException
  | BeartypeCallCheckException
  | BeartypeCallCheckPepException
  | BeartypeCallCheckNonPepException
  | BeartypeWarning
  | _BeartypeUtilException
  | _BeartypeUtilCachedException => true
  | _ => false
  end.

(** [True] for the private classes, whose names start with an underscore:
    each one "denotes a critical internal issue and should thus never be
    raised -- let alone exposed to end users". *)
Definition is_private (c : cls) : bool :=
  match c with
  | _BeartypeDecorBeartypistryException
  | _BeartypeCallBeartypistryException
  | _BeartypeUtilException
  | _BeartypeUtilRaisePepException
  | _BeartypeUtilRaisePepDesynchronizationException
  | _BeartypeUtilCachedException
  | _BeartypeUtilCachedCallableException
  | _BeartypeUtilCachedFixedListException
  | _BeartypeUtilCachedObjectTypedException => true
  | _ => false
  end.

(** All classes, in the order of the module. *)
Definition all_classes : list cls :=
  [ object; BaseException; Exception; Warning; UserWarning;
    BeartypeException;
    BeartypeCaveException; BeartypeCaveNoneTypeOrException;
    BeartypeCaveNoneTypeOrKeyException;
    BeartypeCaveNoneTypeOrMutabilityException;
    BeartypeDecorException; BeartypeDecorWrappeeException;
    BeartypeDecorWrapperException; BeartypeDecorHintException;
    BeartypeDecorHintNonPepException; BeartypeDecorHintPepException;
    BeartypeDecorHintPepUnsupportedException;
    BeartypeDecorHintPep484Exception; BeartypeDecorParamException;
    BeartypeDecorParamNameException; BeartypeDecorPepException;
    BeartypeDecorHintPep563Exception;
    BeartypeCallException; BeartypeCallCheckException;
    BeartypeCallCheckUnavailableTypeException;
    BeartypeCallCheckPepException; BeartypeCallCheckPepParamException;
    BeartypeCallCheckPepReturnException; BeartypeCallCheckNonPepException;
    BeartypeCallCheckNonPepParamException;
    BeartypeCallCheckNonPepReturnException;
    BeartypeWarning;
    _BeartypeDecorBeartypistryException; _BeartypeCallBeartypistryException;
    _BeartypeUtilException; _BeartypeUtilRaisePepException;
    _BeartypeUtilRaisePepDesynchronizationException;
    _BeartypeUtilCachedException; _BeartypeUtilCachedCallableException;
    _BeartypeUtilCachedFixedListException;
    _BeartypeUtilCachedObjectTypedException ].

(** The chain [c, base c, base (base c), ...], cut after [fuel] steps. *)
Fixpoint superclasses (fuel : nat) (c : cls) : list cls :=
  c :: match fuel with
       | O => []
       | S n => match base c with
                | Some b => superclasses n b
                | None => []
                end
       end.

(** Method resolution order.  With single inheritance it is the chain of
    bases; no chain is longer than the number of classes. *)
Definition mro (c : cls) : list cls :=
  superclasses (List.length all_classes) c.

(** [issubclass(c, d)]: [d] occurs in the method resolution order of [c]. *)
Definition issubclass (c d : cls) : bool :=
  existsb (cls_beq d) (mro c).

(** The four families directly below [BeartypeException]. *)
Inductive family : Type :=
| CaveUsageTime
| DecorationTime
| CallTime
| InternalUtility.

Definition family_root (p : family) : cls :=
  match p with
  | CaveUsageTime => BeartypeCaveException
  | DecorationTime => BeartypeDecorException
  | CallTime => BeartypeCallException
  | InternalUtility => _BeartypeUtilException
  end.

Definition all_families : list family :=
  [CaveUsageTime; DecorationTime; CallTime; InternalUtility].

(** The families whose root [c] inherits from. *)
Definition families_of (c : cls) : list family :=
  filter (fun p => issubclass c (family_root p)) all_families.

End Roar.

(** ** [beartype._util.func.utilfunctest]: callable testers *)

Module UtilFuncTest.

(** An attribute of an object: absent, or bound to a value. *)
Inductive attr (A : Type) : Type :=
| Undefined
| Defined (v : A).

Arguments Undefined {A}.
Arguments Defined {A} v.

(** [obj.name]: raises [AttributeError] when the attribute is absent. *)
Definition getattr {A : Type} (a : attr A) : result A :=
  match a with
  | Defined v => Ok v
  | Undefined => Raise AttributeError
  end.

(** [getattr(obj, name, default)]. *)
Definition getattr_default {A : Type} (a : attr A) (default : A) : A :=
  match a with
  | Defined v => v
  | Undefined => default
  end.

(** A closure cell. *)
Record cell : Type := { cell_contents : pyval }.

(** A code object, as far as the testers read it: [co_flags] is the bit
    field of OR-ed flags, an unbounded Python integer. *)
Record codeobject : Type := {
  co_flags : Z;
  co_name : string
}.

(** An arbitrary object passed to a tester, as far as the testers observe
    it: whether [callable()] holds of it, and its [__closure__] (a tuple of
    cells or [None]) and [__qualname__] attributes. *)
Record pyobject : Type := {
  py_callable : bool;
  py___closure__ : attr (option (list cell));
  py___qualname__ : attr string
}.

Definition is_not_none {A : Type} (o : option A) : bool :=
  match o with
  | Some _ => true
  | None => false
  end.

(** [needle in haystack] on strings: the substring test. *)
Fixpoint str_in (needle haystack : string) : bool :=
  String.prefix needle haystack
  || match haystack with
     | EmptyString => false
     | String _ rest => str_in needle rest
     end.

(** Flags of [inspect] (CPython's [Include/cpython/code.h]):
    [CO_GENERATOR = 0x20], [CO_COROUTINE = 0x80],
    [CO_ASYNC_GENERATOR = 0x200]. *)
Definition CO_GENERATOR : Z := 32.
Definition CO_COROUTINE : Z := 128.
Definition CO_ASYNC_GENERATOR : Z := 512.

(** The flags are single bits: a bit field includes a flag when the bit of
    the flag is set in it. *)
Definition flag_is_set (flags flag : Z) : bool :=
  Z.testbit flags (Z.log2 flag).

Section Testers.

(** Imported by the module and taken as parameters:
    from [beartype._util.func.utilfunccodeobj], the code object underlying
    an object, or [None], and the fully-qualified name of a code object;
    from [beartype._data.func.datafunc], a string computed at import time;
    from [beartype._util.py.utilpyversion], a flag of the interpreter. *)
Variable get_func_codeobj_or_none : pyobject -> option codeobject.
Variable get_func_codeobj_name : codeobject -> result string.
Variable CONTEXTLIB_CONTEXTMANAGER_CODEOBJ_NAME : string.
Variable IS_PYTHON_AT_MOST_3_10 : bool.

Definition is_func_python (func : pyobject) : result bool :=
  Ok (is_not_none (get_func_codeobj_or_none func)).

Definition is_func_async (func : pyobject) : result bool :=
  let func_codeobj := get_func_codeobj_or_none func in
  match func_codeobj with
  | None => Ok false
  | Some codeobj =>
      let func_codeobj_flags := co_flags codeobj in
      py_or
        (negb (Z.land func_codeobj_flags CO_COROUTINE =? 0)%Z)
        (Ok (negb (Z.land func_codeobj_flags CO_ASYNC_GENERATOR =? 0)%Z))
  end.

(** In [is_func_coro] and its siblings the attribute [co_flags] is read
    on the right of [and]: it is read only when the code object is not
    [None]. *)
Definition codeobj_co_flags (func_codeobj : option codeobject) : result Z :=
  match func_codeobj with
  | Some codeobj => Ok (co_flags codeobj)
  | None => Raise AttributeError
  end.

Definition is_func_coro (func : pyobject) : result bool :=
  let func_codeobj := get_func_codeobj_or_none func in
  py_and
    (is_not_none func_codeobj)
    (flags <- codeobj_co_flags func_codeobj ;;
     Ok (negb (Z.land flags CO_COROUTINE =? 0)%Z)).

Definition is_func_async_generator (func : pyobject) : result bool :=
  let func_codeobj := get_func_codeobj_or_none func in
  py_and
    (is_not_none func_codeobj)
    (flags <- codeobj_co_flags func_codeobj ;;
     Ok (negb (Z.land flags CO_ASYNC_GENERATOR =? 0)%Z)).

Definition is_func_sync_generator (func : pyobject) : result bool :=
  if negb (py_callable func) then Ok false
  else
    let func_codeobj := get_func_codeobj_or_none func in
    py_and
      (is_not_none func_codeobj)
      (flags <- codeobj_co_flags func_codeobj ;;
       Ok (negb (Z.land flags CO_GENERATOR =? 0)%Z)).

Definition is_func_closure (func : pyobject) : result bool :=
  _ <- py_assert (py_callable func) ;;
  Ok (is_not_none (getattr_default (py___closure__ func) None)).

Definition is_func_nested (func : pyobject) : result bool :=
  _ <- py_assert (py_callable func) ;;
  closure <- is_func_closure func ;;
  py_or closure
    (qualname <- getattr (py___qualname__ func) ;;
     Ok (str_in "." qualname)).

Definition is_func_contextlib_contextmanager (func : pyobject)
  : result bool :=
  cond <- py_or IS_PYTHON_AT_MOST_3_10
            (closure <- is_func_closure func ;; Ok (negb closure)) ;;
  if cond then Ok false
  else
    let func_codeobj := get_func_codeobj_or_none func in
    match func_codeobj with
    | None => Ok false
    | Some codeobj =>
        func_codeobj_name <- get_func_codeobj_name codeobj ;;
        Ok (String.eqb func_codeobj_name
              CONTEXTLIB_CONTEXTMANAGER_CODEOBJ_NAME)
    end.

End Testers.

End UtilFuncTest.

(** ** [beartype_test.unit.data.hint.pep.data_hintpepmeta] *)

Module DataHintPepMeta.

(** Instance variables of [PepHintPithUnsatisfiedMetadata]. *)
Record PepHintPithUnsatisfiedMetadata : Type := {
  pith : pyval;
  exception_str_match_regexes : pyval;
  exception_str_not_match_regexes : pyval
}.

(** The value bound to an optional parameter: the argument when one is
    passed, the default otherwise. *)
Definition arg_or_default (arg : option pyval) (default : pyval) : pyval :=
  match arg with
  | Some v => v
  | None => default
  end.

(** [PepHintPithUnsatisfiedMetadata.__init__]: [pith] is mandatory, the
    two tuples of regular expressions default to [()]. *)
Definition PepHintPithUnsatisfiedMetadata_init
    (pith_arg : pyval)
    (exception_str_match_regexes_arg : option pyval)
    (exception_str_not_match_regexes_arg : option pyval)
  : result PepHintPithUnsatisfiedMetadata :=
  let match_regexes :=
    arg_or_default exception_str_match_regexes_arg (PyTuple []) in
  let not_match_regexes :=
    arg_or_default exception_str_not_match_regexes_arg (PyTuple []) in
  _ <- py_assert (isinstance_tuple match_regexes) ;;
  _ <- py_assert (isinstance_tuple not_match_regexes) ;;
  all_match <- py_all isinstance_str match_regexes ;;
  _ <- py_assert all_match ;;
  all_not_match <- py_all isinstance_str not_match_regexes ;;
  _ <- py_assert all_not_match ;;
  Ok {| pith := pith_arg;
        exception_str_match_regexes := match_regexes;
        exception_str_not_match_regexes := not_match_regexes |}.

(** A tuple whose items are all strings. *)
Definition tuple_of_str (v : pyval) : Prop :=
  exists items : list pyval,
    v = PyTuple items
    /\ Forall (fun item => exists s : string, item = PyStr s) items.

End DataHintPepMeta.

(** ** The shape classifier *)

Module Classifier.

(** Modelled from the spec: the hint expressions handed to the shape
    classifier, whose implementation is not embedded here.  The
    constructors follow the shapes the specification lists in its data
    model, with [HUnion] for a union expression as written (possibly nested,
    possibly with repeated members) and [HOther] for any expression of no
    recognised shape. *)
Inductive Hint : Type :=
| HPrimitive (type_id : string)
| HUnion (members : list Hint)
| HSequence (elem : Hint)
| HFixedTuple (elems : list Hint)
| HMapping (key value : Hint)
| HTypeVariable (bound : option Hint) (constraints : list Hint)
| HForwardRef (name : string)
| HLiteral (values : list pyval)
| HProtocol (params : list Hint) (ret : Hint)
| HOther (description : string).

(** Modelled from the spec: the closed set of shape tags,
    "Primitive(type-id), Union(ordered set of Hint), Sequence(element Hint),
    FixedTuple(ordered sequence of Hint), Mapping(key Hint, value Hint),
    TypeVariable(bound, constraints), ForwardRef(name, resolved),
    Literal(set of concrete values), Protocol(parameter Hints, return Hint),
    Unsupported(reason)". *)
Inductive HintShape : Type :=
| Primitive (type_id : string)
| Union (members : list Hint)
| Sequence (elem : Hint)
| FixedTuple (elems : list Hint)
| Mapping (key value : Hint)
| TypeVariable (bound : option Hint) (constraints : list Hint)
| ForwardRef (name : string) (resolved : option Hint)
| Literal (values : list pyval)
| Protocol (params : list Hint) (ret : Hint)
| Unsupported (reason : string).

Definition option_eqb {A : Type} (eqb : A -> A -> bool) (x y : option A)
  : bool :=
  match x, y with
  | None, None => true
  | Some a, Some b => eqb a b
  | _, _ => false
  end.

Fixpoint list_eqb {A : Type} (eqb : A -> A -> bool) (xs ys : list A) : bool :=
  match xs, ys with
  | [], [] => true
  | x :: xs', y :: ys' => eqb x y && list_eqb eqb xs' ys'
  | _, _ => false
  end.

(** Modelled from the spec: hint identity, "established by structural
    equality". *)
Fixpoint hint_eqb (h k : Hint) {struct h} : bool :=
  let fix hints_eqb (hs ks : list Hint) {struct hs} : bool :=
    match hs, ks with
    | [], [] => true
    | h' :: hs', k' :: ks' => hint_eqb h' k' && hints_eqb hs' ks'
    | _, _ => false
    end in
  match h, k with
  | HPrimitive a, HPrimitive b => String.eqb a b
  | HUnion hs, HUnion ks => hints_eqb hs ks
  | HSequence a, HSequence b => hint_eqb a b
  | HFixedTuple hs, HFixedTuple ks => hints_eqb hs ks
  | HMapping a1 a2, HMapping b1 b2 => hint_eqb a1 b1 && hint_eqb a2 b2
  | HTypeVariable a hs, HTypeVariable b ks =>
      match a, b with
      | None, None => true
      | Some a', Some b' => hint_eqb a' b'
      | _, _ => false
      end && hints_eqb hs ks
  | HForwardRef a, HForwardRef b => String.eqb a b
  | HLiteral vs, HLiteral ws => list_eqb pyval_eqb vs ws
  | HProtocol hs a, HProtocol ks b => hints_eqb hs ks && hint_eqb a b
  | HOther a, HOther b => String.eqb a b
  | _, _ => false
  end.

(** Modelled from the spec: "Nested unions are flattened (union-of-unions
    becomes one union)".  The members of a union expression once every
    union nested in it, at any depth, is spliced in place; a hint that is
    not a union is its own single member. *)
Fixpoint union_members (h : Hint) : list Hint :=
  match h with
  | HUnion members => flat_map union_members members
  | _ => [h]
  end.

Definition is_union (h : Hint) : bool :=
  match h with
  | HUnion _ => true
  | _ => false
  end.

(** Modelled from the spec: a union holds an "ordered set of Hint".  Each
    hint is kept at its first occurrence. *)
Fixpoint ordered_set (seen hs : list Hint) : list Hint :=
  match hs with
  | [] => []
  | h :: rest =>
      if existsb (hint_eqb h) seen then ordered_set seen rest
      else h :: ordered_set (h :: seen) rest
  end.

(** Modelled from the spec: the shape of a hint that is not a union.  A
    forward reference is not resolved at classification time; "unrecognized
    shapes fall into Unsupported". *)
Definition shape_of_member (h : Hint) : HintShape :=
  match h with
  | HPrimitive type_id => Primitive type_id
  | HUnion members => Union members
  | HSequence elem => Sequence elem
  | HFixedTuple elems => FixedTuple elems
  | HMapping key value => Mapping key value
  | HTypeVariable bound constraints => TypeVariable bound constraints
  | HForwardRef name => ForwardRef name None
  | HLiteral values => Literal values
  | HProtocol params ret => Protocol params ret
  | HOther description => Unsupported description
  end.

(** Modelled from the spec: [classify(hint) -> HintShape], total.  A union
    is flattened and made an ordered set; "a union containing only one
    member degenerates to that member's shape".  The specification is silent
    on a union without members, which is classified as unsupported. *)
Definition classify (h : Hint) : HintShape :=
  match h with
  | HUnion _ =>
      match ordered_set [] (union_members h) with
      | [] => Unsupported "union without members"
      | [member] => shape_of_member member
      | members => Union members
      end
  | _ => shape_of_member h
  end.

End Classifier.

(** ** The diagnostic raiser *)

Module PepError.

Import Roar.

(** Modelled from the spec: a check site, "per-call-argument or per-return
    identity". *)
Inductive CheckSite : Type :=
| ParamSite (name : string)
| ReturnSite.

Section Raiser.

(** The re-derivation of the check by the diagnostic walker: [true] when
    the pith appears to satisfy the hint. *)
Variable pith_satisfies_hint : pyval -> Classifier.Hint -> bool.

(** Modelled from the spec: the class of the exception raised by
    [beartype._util.hint.pep.error.peperror.raise_pep_call_exception],
    whose implementation is not embedded here.  By the docstring of
    [_BeartypeUtilRaisePepDesynchronizationException] that exception is
    raised "when this pith actually appears to satisfy this type check";
    otherwise an argument violation or a return violation is raised, which
    are the call-time kinds [BeartypeCallCheckPepParamException] and
    [BeartypeCallCheckPepReturnException]. *)
Definition raise_pep_call_exception
    (site : CheckSite) (pith : pyval) (hint : Classifier.Hint) : cls :=
  if pith_satisfies_hint pith hint
  then _BeartypeUtilRaisePepDesynchronizationException
  else match site with
       | ParamSite _ => BeartypeCallCheckPepParamException
       | ReturnSite => BeartypeCallCheckPepReturnException
       end.

End Raiser.

End PepError.

(** ** Example inputs *)

Module Examples.

Import UtilFuncTest.

(** A re-derivation that accepts integers for the hint [int] and nothing
    else. *)
Definition accepts_int_for_int (pith : pyval) (hint : Classifier.Hint)
  : bool :=
  match pith, hint with
  | PyInt _, Classifier.HPrimitive "int" => true
  | _, _ => false
  end.

(** The closure returned by [contextlib.contextmanager], and the code object
    under it. *)
Definition contextmanager_helper : pyobject :=
  {| py_callable := true;
     py___closure__ := Defined (Some [ {| cell_contents := PyNone |} ]);
     py___qualname__ := Defined "_noop_context_manager" |}.

Definition contextmanager_helper_code : codeobject :=
  {| co_flags := 31; co_name := "helper" |}.

(** A closure declared in the body of a function [outer]. *)
Definition inner_closure : pyobject :=
  {| py_callable := true;
     py___closure__ := Defined (Some [ {| cell_contents := PyInt 1 |} ]);
     py___qualname__ := Defined "outer.<locals>.inner" |}.

(** A method, which is nested without being a closure. *)
Definition plain_method : pyobject :=
  {| py_callable := true;
     py___closure__ := Defined None;
     py___qualname__ := Defined "MuhClass.muh_method" |}.

End Examples.

(** ** [beartype._util.func.utilfunctest]: the other testers and the
    validators *)

Module UtilFuncTestMore.

Import UtilFuncTest.

Definition FUNC_NAME_LAMBDA : string := "<lambda>".

(** The builtin descriptor classes tested by [isinstance]. *)
Inductive descriptor_class : Type :=
| classmethod
| property
| staticmethod.

(** What a [raise] leaves behind: a builtin exception, or an instance of a
    class passed by the caller, built from a message. *)
Inductive raised (pyclass : Type) : Type :=
| Builtin (e : pyexc)
| Instance (c : pyclass) (message : string).

Arguments Builtin {pyclass} e.
Arguments Instance {pyclass} c message.

Inductive outcome (pyclass A : Type) : Type :=
| Returns (a : A)
| Raises (r : raised pyclass).

Arguments Returns {pyclass A} a.
Arguments Raises {pyclass A} r.

Definition obind {pyclass A B : Type}
    (m : outcome pyclass A) (k : A -> outcome pyclass B)
  : outcome pyclass B :=
  match m with
  | Returns a => k a
  | Raises r => Raises r
  end.

Definition lift {pyclass A : Type} (m : result A) : outcome pyclass A :=
  match m with
  | Ok a => Returns a
  | Raise e => Raises (Builtin e)
  end.

(** The object passed as [exception_cls]: a class, or anything else. *)
Inductive class_arg (pyclass : Type) : Type :=
| ClassObject (c : pyclass)
| NotClass (v : pyval).

Arguments ClassObject {pyclass} c.
Arguments NotClass {pyclass} v.

(** [assert isinstance(exception_cls, type)]: past the assertion the
    argument is a class. *)
Definition assert_isinstance_type {pyclass : Type}
    (exception_cls : class_arg pyclass) : outcome pyclass pyclass :=
  match exception_cls with
  | ClassObject c => Returns c
  | NotClass _ => Raises (Builtin AssertionError)
  end.

(** [assert isinstance(exception_prefix, str)]: past the assertion the
    argument is a string. *)
Definition assert_isinstance_str {pyclass : Type}
    (exception_prefix : pyval) : outcome pyclass string :=
  match exception_prefix with
  | PyStr s => Returns s
  | _ => Raises (Builtin AssertionError)
  end.

Section More.

(** Imported by the module and taken as parameters, as in [UtilFuncTest];
    from [beartype._util.func.arg.utilfuncargtest], the two testers of
    variadic arguments.  The attribute [__name__], the builtins [repr] and
    [isinstance(_, classmethod | property | staticmethod)], the classes and
    [issubclass(_, Exception)] are those of the interpreter;
    [_BeartypeUtilCallableException] is imported from [beartype.roar]. *)
Variable get_func_codeobj_or_none : pyobject -> option codeobject.
Variable is_func_arg_variadic_positional : codeobject -> result bool.
Variable is_func_arg_variadic_keyword : codeobject -> result bool.
Variable py___name__ : pyobject -> attr string.
Variable repr : pyobject -> string.
Variable isinstance : pyobject -> descriptor_class -> bool.
Variable pyclass : Type.
Variable issubclass_Exception : pyclass -> bool.
Variable _BeartypeUtilCallableException : pyclass.

Definition is_func_lambda (func : pyobject) : result bool :=
  python <- is_func_python get_func_codeobj_or_none func ;;
  py_and python
    (name <- getattr (py___name__ func) ;;
     Ok (String.eqb name FUNC_NAME_LAMBDA)).

Definition is_func_classmethod (func : pyobject) : result bool :=
  Ok (isinstance func classmethod).

Definition is_func_property (func : pyobject) : result bool :=
  Ok (isinstance func property).

Definition is_func_staticmethod (func : pyobject) : result bool :=
  Ok (isinstance func staticmethod).

Definition is_func_closure_isomorphic (func : pyobject) : result bool :=
  closure <- is_func_closure func ;;
  if negb closure then Ok false
  else
    let func_codeobj := get_func_codeobj_or_none func in
    match func_codeobj with
    | None => Ok false
    | Some codeobj =>
        positional <- is_func_arg_variadic_positional codeobj ;;
        py_and positional (is_func_arg_variadic_keyword codeobj)
    end.

(** The optional parameters [exception_cls] and [exception_prefix]. *)
Definition exception_cls_or_default (arg : option (class_arg pyclass))
  : class_arg pyclass :=
  match arg with
  | Some exception_cls => exception_cls
  | None => ClassObject _BeartypeUtilCallableException
  end.

Definition exception_prefix_or_default (arg : option pyval) : pyval :=
  match arg with
  | Some exception_prefix => exception_prefix
  | None => PyStr ""
  end.

(** The three assertions that open the failure branch of each validator;
    they yield the class and the prefix they have checked. *)
Definition assert_exception_args
    (exception_cls : class_arg pyclass) (exception_prefix : pyval)
  : outcome pyclass (pyclass * string) :=
  obind (assert_isinstance_type exception_cls) (fun cls =>
  obind (lift (py_assert (issubclass_Exception cls))) (fun _ =>
  obind (assert_isinstance_str exception_prefix) (fun prefix =>
  Returns (cls, prefix)))).

Definition die_unless_func_python
    (func : pyobject)
    (exception_cls_arg : option (class_arg pyclass))
    (exception_prefix_arg : option pyval)
  : outcome pyclass unit :=
  let exception_cls := exception_cls_or_default exception_cls_arg in
  let exception_prefix := exception_prefix_or_default exception_prefix_arg in
  obind (lift (is_func_python get_func_codeobj_or_none func)) (fun python =>
  if negb python then
    obind (assert_exception_args exception_cls exception_prefix)
      (fun '(cls, prefix) =>
    if negb (py_callable func) then
      Raises (Instance cls (prefix ++ repr func ++ " not callable."))
    else
      Raises (Instance cls
                (prefix ++ repr func ++ " not pure-Python function.")))
  else Returns tt).

Definition die_unless_func_classmethod
    (func : pyobject)
    (exception_cls_arg : option (class_arg pyclass))
    (exception_prefix_arg : option pyval)
  : outcome pyclass unit :=
  let exception_cls := exception_cls_or_default exception_cls_arg in
  let exception_prefix := exception_prefix_or_default exception_prefix_arg in
  obind (lift (is_func_classmethod func)) (fun is_classmethod =>
  if negb is_classmethod then
    obind (assert_exception_args exception_cls exception_prefix)
      (fun '(cls, prefix) =>
    Raises (Instance cls
              (prefix ++ repr func
               ++ " not C-based unbound class method descriptor.")))
  else Returns tt).

Definition die_unless_func_property
    (func : pyobject)
    (exception_cls_arg : option (class_arg pyclass))
    (exception_prefix_arg : option pyval)
  : outcome pyclass unit :=
  let exception_cls := exception_cls_or_default exception_cls_arg in
  let exception_prefix := exception_prefix_or_default exception_prefix_arg in
  obind (lift (is_func_property func)) (fun is_property =>
  if negb is_property then
    obind (assert_exception_args exception_cls exception_prefix)
      (fun '(cls, prefix) =>
    Raises (Instance cls
              (prefix ++ repr func
               ++ " not C-based unbound property method descriptor.")))
  else Returns tt).

Definition die_unless_func_staticmethod
    (func : pyobject)
    (exception_cls_arg : option (class_arg pyclass))
    (exception_prefix_arg : option pyval)
  : outcome pyclass unit :=
  let exception_cls := exception_cls_or_default exception_cls_arg in
  let exception_prefix := exception_prefix_or_default exception_prefix_arg in
  obind (lift (is_func_staticmethod func)) (fun is_staticmethod =>
  if negb is_staticmethod then
    obind (assert_exception_args exception_cls exception_prefix)
      (fun '(cls, prefix) =>
    Raises (Instance cls
              (prefix ++ repr func
               ++ " not C-based unbound static method descriptor.")))
  else Returns tt).

End More.

End UtilFuncTestMore.

(** ** [beartype_test.unit.data.hint.pep.data_hintpepmeta]: hint metadata *)

Module DataHintPepMetaMore.

Import DataHintPepMeta.

(** The objects passed to [PepHintMetadata]: plain values, classes, and
    instances of [PepHintPithUnsatisfiedMetadata]. *)
Inductive pyobj : Type :=
| ONone
| OBool (b : bool)
| OInt (z : Z)
| OStr (s : string)
| OTuple (items : list pyobj)
| OList (items : list pyobj)
| OType (name : string)
| OUnsatisfied (meta : PepHintPithUnsatisfiedMetadata).

Definition isinstance_bool (v : pyobj) : bool :=
  match v with
  | OBool _ => true
  | _ => false
  end.

Definition isinstance_tuple (v : pyobj) : bool :=
  match v with
  | OTuple _ => true
  | _ => false
  end.

Definition isinstance_PepHintPithUnsatisfiedMetadata (v : pyobj) : bool :=
  match v with
  | OUnsatisfied _ => true
  | _ => false
  end.

(** [isinstance(v, (type, type(None)))]. *)
Definition isinstance_type_or_NoneType (v : pyobj) : bool :=
  match v with
  | OType _ | ONone => true
  | _ => false
  end.

Definition obj_iter (v : pyobj) : result (list pyobj) :=
  match v with
  | OTuple items => Ok items
  | OList items => Ok items
  | OStr s => Ok (map (fun ch => OStr (String ch EmptyString))
                      (list_ascii_of_string s))
  | ONone | OBool _ | OInt _ | OType _ | OUnsatisfied _ => Raise TypeError
  end.

Definition obj_all (p : pyobj -> bool) (v : pyobj) : result bool :=
  items <- obj_iter v ;;
  Ok (forallb p items).

(** Keyword arguments: a dictionary from names to objects, in insertion
    order. *)
Definition kwargs : Type := list (string * pyobj).

Fixpoint dict_get (key : string) (d : kwargs) : option pyobj :=
  match d with
  | [] => None
  | (k, v) :: rest => if String.eqb k key then Some v else dict_get key rest
  end.

(** [d[key] = v]. *)
Fixpoint dict_set (key : string) (v : pyobj) (d : kwargs) : kwargs :=
  match d with
  | [] => [(key, v)]
  | (k, w) :: rest =>
      if String.eqb k key then (key, v) :: rest
      else (k, w) :: dict_set key v rest
  end.

(** Binding of the arguments of a call [f( *args, **kwargs)] to the
    parameters of [f]; every failure is a [TypeError].  [check_call]: no
    more positional arguments than parameters and no keyword that names no
    parameter.  [bind_param]: the value of the parameter at position
    [index]: the positional argument there, which no keyword may repeat;
    else the keyword argument; else the default, if there is one. *)
Definition check_call (names : list string) (args : list pyobj)
    (kw : kwargs) : result unit :=
  if (List.length args <=? List.length names)%nat
     && forallb (fun entry => existsb (String.eqb (fst entry)) names) kw
  then Ok tt
  else Raise TypeError.

Definition bind_param (index : nat) (name : string) (default : option pyobj)
    (args : list pyobj) (kw : kwargs) : result pyobj :=
  match nth_error args index with
  | Some arg =>
      match dict_get name kw with
      | Some _ => Raise TypeError
      | None => Ok arg
      end
  | None =>
      match dict_get name kw with
      | Some v => Ok v
      | None =>
          match default with
          | Some v => Ok v
          | None => Raise TypeError
          end
      end
  end.

(** Instance variables of [PepHintMetadata]. *)
Record PepHintMetadata : Type := {
  pep_sign : pyobj;
  is_supported : pyobj;
  is_pep484_generic : pyobj;
  is_typevared : pyobj;
  piths_satisfied : pyobj;
  piths_unsatisfied_meta : pyobj;
  type_origin : pyobj
}.

(** The parameters of [PepHintMetadata.__init__] after [self], in the order
    of the signature. *)
Definition PepHintMetadata_params : list string :=
  [ "pep_sign"; "is_pep484_generic"; "is_supported"; "is_typevared";
    "piths_satisfied"; "piths_unsatisfied_meta"; "type_origin" ].

(** [PepHintMetadata.__init__(self, *args, **kw)] once Python has bound
    [args] and [kw] to the parameters. *)
Definition PepHintMetadata_init (args : list pyobj) (kw : kwargs)
  : result PepHintMetadata :=
  _ <- check_call PepHintMetadata_params args kw ;;
  pep_sign_arg <- bind_param 0 "pep_sign" None args kw ;;
  is_pep484_generic_arg <-
    bind_param 1 "is_pep484_generic" (Some (OBool false)) args kw ;;
  is_supported_arg <-
    bind_param 2 "is_supported" (Some (OBool true)) args kw ;;
  is_typevared_arg <-
    bind_param 3 "is_typevared" (Some (OBool false)) args kw ;;
  piths_satisfied_arg <-
    bind_param 4 "piths_satisfied" (Some (OTuple [])) args kw ;;
  piths_unsatisfied_meta_arg <-
    bind_param 5 "piths_unsatisfied_meta" (Some (OTuple [])) args kw ;;
  type_origin_arg <- bind_param 6 "type_origin" (Some ONone) args kw ;;
  _ <- py_assert (isinstance_bool is_supported_arg) ;;
  _ <- py_assert (isinstance_bool is_pep484_generic_arg) ;;
  _ <- py_assert (isinstance_bool is_typevared_arg) ;;
  _ <- py_assert (isinstance_tuple piths_satisfied_arg) ;;
  _ <- py_assert (isinstance_tuple piths_unsatisfied_meta_arg) ;;
  all_meta <- obj_all isinstance_PepHintPithUnsatisfiedMetadata
                piths_unsatisfied_meta_arg ;;
  _ <- py_assert all_meta ;;
  _ <- py_assert (isinstance_type_or_NoneType type_origin_arg) ;;
  Ok {| pep_sign := pep_sign_arg;
        is_supported := is_supported_arg;
        is_pep484_generic := is_pep484_generic_arg;
        is_typevared := is_typevared_arg;
        piths_satisfied := piths_satisfied_arg;
        piths_unsatisfied_meta := piths_unsatisfied_meta_arg;
        type_origin := type_origin_arg |}.

(** [PepHintClassedMetadata.__init__(self, *args, **kwargs)]: sets
    [kwargs['pep_sign'] = None], then initialises the superclass with
    [*args, **kwargs]. *)
Definition PepHintClassedMetadata_init (args : list pyobj) (kw : kwargs)
  : result PepHintMetadata :=
  let kw' := dict_set "pep_sign" ONone kw in
  PepHintMetadata_init args kw'.

(** A tuple whose items are all instances of
    [PepHintPithUnsatisfiedMetadata]. *)
Definition tuple_of_unsatisfied (v : pyobj) : Prop :=
  exists items : list pyobj,
    v = OTuple items
    /\ Forall (fun item => exists meta, item = OUnsatisfied meta) items.

End DataHintPepMetaMore.

(** ** [beartype._data.func.datafunc] *)

Module DataFunc.

(** The names passed to [frozenset], in the order of the source. *)
Definition METHOD_NAMES_DUNDER_BINARY : list string :=
  [ "__add__"; "__and__"; "__cmp__"; "__divmod__"; "__div__"; "__eq__";
    "__floordiv__"; "__ge__"; "__gt__"; "__iadd__"; "__iand__"; "__idiv__";
    "__ifloordiv__"; "__ilshift__"; "__imatmul__"; "__imod__"; "__imul__";
    "__ior__"; "__ipow__"; "__irshift__"; "__isub__"; "__itruediv__";
    "__ixor__"; "__le__"; "__lshift__"; "__lt__"; "__matmul__"; "__mod__";
    "__mul__"; "__ne__"; "__or__"; "__pow__"; "__radd__"; "__rand__";
    "__rdiv__"; "__rfloordiv__"; "__rlshift__"; "__rmatmul__"; "__rmod__";
    "__rmul__"; "__ror__"; "__rpow__"; "__rrshift__"; "__rshift__";
    "__rsub__"; "__rtruediv__"; "__rxor__"; "__sub__"; "__truediv__";
    "__xor__" ].

(** [name in METHOD_NAMES_DUNDER_BINARY]. *)
Definition is_method_name_dunder_binary (name : string) : bool :=
  existsb (String.eqb name) METHOD_NAMES_DUNDER_BINARY.

End DataFunc.

(** ** [beartype.roar]: builtin classes and handlers *)

Module RoarMore.

Import Roar.

(** The builtin classes, which [roar.py] inherits from and does not
    declare. *)
Definition is_builtin (c : cls) : bool :=
  match c with
  | object | BaseException | Exception | Warning | UserWarning => true
  | _ => false
  end.

(** Whether [P c d] holds of all pairs, and of all triples, of classes. *)
Definition forall_classes2 (P : cls -> cls -> bool) : bool :=
  forallb (fun c => forallb (P c) all_classes) all_classes.

Definition forall_classes3 (P : cls -> cls -> cls -> bool) : bool :=
  forallb (fun c => forall_classes2 (P c)) all_classes.

End RoarMore.

(** ** More example inputs *)

Module MoreExamples.

Import UtilFuncTest UtilFuncTestMore.

(** A builtin implemented in C: callable, without [__closure__] and without
    a code object. *)
Definition c_builtin : pyobject :=
  {| py_callable := true;
     py___closure__ := Undefined;
     py___qualname__ := Defined "len" |}.

(** A callable instance of a class without [__qualname__], such as a
    [functools.partial] object. *)
Definition partial_object : pyobject :=
  {| py_callable := true;
     py___closure__ := Undefined;
     py___qualname__ := Undefined |}.

(** An object that is not callable, such as a generator object. *)
Definition generator_object : pyobject :=
  {| py_callable := false;
     py___closure__ := Undefined;
     py___qualname__ := Defined "gen" |}.

(** A module-level function. *)
Definition plain_function : pyobject :=
  {| py_callable := true;
     py___closure__ := Defined None;
     py___qualname__ := Defined "muh_function" |}.

(** Code objects: of a plain function, of a generator function, of a
    lambda, and of a closure [def inner( *args, **kwargs)]. *)
Definition plain_code : codeobject :=
  {| co_flags := 3; co_name := "muh_function" |}.

Definition generator_code : codeobject :=
  {| co_flags := 35; co_name := "gen" |}.

Definition lambda_code : codeobject :=
  {| co_flags := 3; co_name := "<lambda>" |}.

(** Every object owns [plain_code]; no object owns a code object. *)
Definition always_code (code : codeobject) (func : pyobject)
  : option codeobject := Some code.

Definition never_code (func : pyobject) : option codeobject := None.

(** [CO_VARARGS = 0x4] and [CO_VARKEYWORDS = 0x8]. *)
Definition has_varargs (code : codeobject) : result bool :=
  Ok (Z.testbit (co_flags code) 2).

Definition has_varkeywords (code : codeobject) : result bool :=
  Ok (Z.testbit (co_flags code) 3).

Definition name_is_qualname (func : pyobject) : attr string :=
  py___qualname__ func.

Definition no_name (func : pyobject) : attr string := Undefined.

Definition repr_qualname (func : pyobject) : string :=
  match py___qualname__ func with
  | Defined name => "<function " ++ name ++ ">"
  | Undefined => "<object>"
  end.

Definition never_descriptor (func : pyobject) (c : descriptor_class)
  : bool := false.

Definition issubclass_Exception (c : Roar.cls) : bool :=
  Roar.issubclass c Roar.Exception.

End MoreExamples.

(** * Properties *)

(** ** The result monad *)

Lemma bind_ok {A B : Type} (m : result A) (k : A -> result B) (b : B) :
  bind m k = Ok b -> exists a, m = Ok a /\ k a = Ok b.
Proof.
  destruct m as [a | e]; simpl; intros H.
  - exists a. split; [reflexivity | exact H].
  - discriminate H.
Qed.

Lemma py_assert_ok (cond : bool) (u : unit) :
  py_assert cond = Ok u -> cond = true.
Proof.
  unfold py_assert. destruct cond; [reflexivity | discriminate].
Qed.

(** ** The exception hierarchy *)

Section RoarFacts.

Import Roar.

Lemma all_classes_complete (c : cls) : In c all_classes.
Proof. destruct c; simpl; tauto. Qed.

Lemma cls_beq_eq (c d : cls) : cls_beq c d = true <-> c = d.
Proof.
  split.
  - apply internal_cls_dec_bl.
  - apply internal_cls_dec_lb.
Qed.

(** The fuel of [mro] is enough: every chain of bases reaches [object],
    the only class without a base. *)
Lemma mro_ends_at_object (c : cls) : last (mro c) c = object.
Proof. destruct c; reflexivity. Qed.

(** [issubclass] is the reflexive and transitive closure of [base]. *)
Lemma issubclass_unfold (c d : cls) :
  issubclass c d =
  cls_beq d c || match base c with
                 | Some b => issubclass b d
                 | None => false
                 end.
Proof. destruct c; destruct d; reflexivity. Qed.

Lemma issubclass_refl (c : cls) : issubclass c c = true.
Proof. destruct c; reflexivity. Qed.

Lemma issubclass_base (c b d : cls) :
  base c = Some b -> issubclass b d = true -> issubclass c d = true.
Proof.
  intros Hb Hd. rewrite issubclass_unfold, Hb, Hd.
  apply orb_true_r.
Qed.

End RoarFacts.

Section Taxonomy.

Import Roar.

(** C1, as stated, fails: [BeartypeCaveNoneTypeOrKeyException] is a
    concrete class below [BeartypeException] that is neither a
    decoration-time class, nor a call-time class, nor a private (internal)
    class.  It is raised "at usage time" of [beartype.cave]. *)
Lemma cave_exception_outside_decoration_and_call :
  ~ (forall c : cls,
        issubclass c BeartypeException = true ->
        is_abstract c = false ->
        issubclass c BeartypeDecorException = true
        \/ issubclass c BeartypeCallException = true
        \/ is_private c = true).
Proof.
  intros H.
  destruct (H BeartypeCaveNoneTypeOrKeyException eq_refl eq_refl)
    as [Hd | [Hc | Hp]]; discriminate.
Qed.

(** C1, amended: every concrete class below [BeartypeException] inherits
    from exactly one of the four family roots: [BeartypeCaveException]
    (usage time of [beartype.cave]), [BeartypeDecorException] (decoration
    time), [BeartypeCallException] (call time) and [_BeartypeUtilException]
    (internal); and every concrete class outside the decoration-time and
    call-time families is either a cave class or a private class. *)
Theorem concrete_exception_in_one_family (c : cls) :
  issubclass c BeartypeException = true ->
  is_abstract c = false ->
  (exists p : family, families_of c = [p])
  /\ (issubclass c BeartypeDecorException = true
      \/ issubclass c BeartypeCallException = true
      \/ is_private c = true
      \/ issubclass c BeartypeCaveException = true).
Proof.
  intros Hsub Hconcrete.
  destruct c; try discriminate Hsub; try discriminate Hconcrete;
    (split;
     [ eexists; reflexivity
     | first [ left; reflexivity
             | right; left; reflexivity
             | right; right; left; reflexivity
             | right; right; right; reflexivity ] ]).
Qed.

Lemma concrete_exception_in_one_family_witness :
  issubclass BeartypeCaveNoneTypeOrKeyException BeartypeException = true
  /\ is_abstract BeartypeCaveNoneTypeOrKeyException = false
  /\ ((exists p : family,
          families_of BeartypeCaveNoneTypeOrKeyException = [p])
      /\ (issubclass BeartypeCaveNoneTypeOrKeyException
            BeartypeDecorException = true
          \/ issubclass BeartypeCaveNoneTypeOrKeyException
               BeartypeCallException = true
          \/ is_private BeartypeCaveNoneTypeOrKeyException = true
          \/ issubclass BeartypeCaveNoneTypeOrKeyException
               BeartypeCaveException = true)).
Proof.
  split; [reflexivity | split; [reflexivity | ]].
  apply (concrete_exception_in_one_family
           BeartypeCaveNoneTypeOrKeyException); reflexivity.
Defined.

(** C3: the exception for unsupported hints,
    [BeartypeDecorHintPepUnsupportedException], is a subclass of the
    decoration-time base [BeartypeDecorException] and not a subclass of
    the call-time base [BeartypeCallException]. *)
Theorem unsupported_hint_exception_is_decoration_time :
  issubclass BeartypeDecorHintPepUnsupportedException
    BeartypeDecorException = true
  /\ issubclass BeartypeDecorHintPepUnsupportedException
       BeartypeCallException = false.
Proof. split; reflexivity. Qed.

(** C4: [BeartypeCallCheckPepParamException] and
    [BeartypeCallCheckPepReturnException] are two distinct classes, both
    subclasses of the call-time base [BeartypeCallException], and neither
    is a subclass of the other. *)
Theorem param_and_return_exceptions_are_distinct_call_time :
  BeartypeCallCheckPepParamException <> BeartypeCallCheckPepReturnException
  /\ issubclass BeartypeCallCheckPepParamException
       BeartypeCallException = true
  /\ issubclass BeartypeCallCheckPepReturnException
       BeartypeCallException = true
  /\ issubclass BeartypeCallCheckPepParamException
       BeartypeCallCheckPepReturnException = false
  /\ issubclass BeartypeCallCheckPepReturnException
       BeartypeCallCheckPepParamException = false.
Proof.
  split; [discriminate | ].
  repeat split; reflexivity.
Qed.

End Taxonomy.

Section Desynchronization.

Import Roar PepError Examples.

(** C2: when the re-derivation finds that the pith satisfies the hint, the
    exception raised is [_BeartypeUtilRaisePepDesynchronizationException]:
    a private class, a subclass of [_BeartypeUtilException], and neither a
    type-violation exception ([BeartypeCallCheckException]) nor any other
    call-time or decoration-time exception. *)
Theorem desynchronization_raises_internal_exception
    (pith_satisfies_hint : pyval -> Classifier.Hint -> bool)
    (site : CheckSite) (pith : pyval) (hint : Classifier.Hint) :
  pith_satisfies_hint pith hint = true ->
  raise_pep_call_exception pith_satisfies_hint site pith hint
  = _BeartypeUtilRaisePepDesynchronizationException
  /\ issubclass
       (raise_pep_call_exception pith_satisfies_hint site pith hint)
       _BeartypeUtilException = true
  /\ is_private
       (raise_pep_call_exception pith_satisfies_hint site pith hint) = true
  /\ issubclass
       (raise_pep_call_exception pith_satisfies_hint site pith hint)
       BeartypeCallCheckException = false
  /\ issubclass
       (raise_pep_call_exception pith_satisfies_hint site pith hint)
       BeartypeCallException = false
  /\ issubclass
       (raise_pep_call_exception pith_satisfies_hint site pith hint)
       BeartypeDecorException = false.
Proof.
  intros Hsat. unfold raise_pep_call_exception. rewrite Hsat.
  repeat split; reflexivity.
Qed.

Lemma desynchronization_raises_internal_exception_witness :
  accepts_int_for_int (PyInt 3) (Classifier.HPrimitive "int") = true
  /\ raise_pep_call_exception accepts_int_for_int (ParamSite "a")
       (PyInt 3) (Classifier.HPrimitive "int")
     = _BeartypeUtilRaisePepDesynchronizationException.
Proof.
  split; [reflexivity | ].
  apply (desynchronization_raises_internal_exception accepts_int_for_int
           (ParamSite "a") (PyInt 3) (Classifier.HPrimitive "int")).
  reflexivity.
Defined.

End Desynchronization.

(** ** The callable testers *)

Section BitFlags.

Import UtilFuncTest.

(** Masking with a single bit leaves zero exactly when the bit is clear. *)
Lemma land_pow2_eqb_0 (x k : Z) :
  (0 <= k)%Z ->
  (Z.land x (2 ^ k) =? 0)%Z = negb (Z.testbit x k).
Proof.
  intros Hk.
  destruct (Z.testbit x k) eqn:Hbit; simpl.
  - apply Z.eqb_neq. intros Hzero.
    assert (Hland : Z.testbit (Z.land x (2 ^ k)) k = true).
    { rewrite Z.land_spec, Hbit, Z.pow2_bits_true by exact Hk.
      reflexivity. }
    rewrite Hzero, Z.bits_0 in Hland. discriminate Hland.
  - apply Z.eqb_eq. apply Z.bits_inj'. intros n Hn.
    rewrite Z.land_spec, Z.bits_0.
    destruct (Z.eq_dec k n) as [-> | Hne].
    + rewrite Hbit. reflexivity.
    + rewrite Z.pow2_bits_false by exact Hne.
      apply andb_false_r.
Qed.

Lemma mask_CO_COROUTINE (flags : Z) :
  negb (Z.land flags CO_COROUTINE =? 0)%Z = flag_is_set flags CO_COROUTINE.
Proof.
  change CO_COROUTINE with (2 ^ 7)%Z at 1.
  rewrite land_pow2_eqb_0 by lia.
  apply negb_involutive.
Qed.

Lemma mask_CO_ASYNC_GENERATOR (flags : Z) :
  negb (Z.land flags CO_ASYNC_GENERATOR =? 0)%Z
  = flag_is_set flags CO_ASYNC_GENERATOR.
Proof.
  change CO_ASYNC_GENERATOR with (2 ^ 9)%Z at 1.
  rewrite land_pow2_eqb_0 by lia.
  apply negb_involutive.
Qed.

End BitFlags.

Section TesterFacts.

Import UtilFuncTest.

Variable get_func_codeobj_or_none : pyobject -> option codeobject.
Variable get_func_codeobj_name : codeobject -> result string.
Variable CONTEXTLIB_CONTEXTMANAGER_CODEOBJ_NAME : string.

(** The three asynchronous testers in closed form. *)
Lemma is_func_async_eq (func : pyobject) :
  is_func_async get_func_codeobj_or_none func =
  Ok match get_func_codeobj_or_none func with
     | None => false
     | Some codeobj =>
         flag_is_set (co_flags codeobj) CO_COROUTINE
         || flag_is_set (co_flags codeobj) CO_ASYNC_GENERATOR
     end.
Proof.
  unfold UtilFuncTest.is_func_async.
  destruct (get_func_codeobj_or_none func) as [codeobj | ];
    [ | reflexivity].
  rewrite mask_CO_COROUTINE, mask_CO_ASYNC_GENERATOR.
  destruct (flag_is_set (co_flags codeobj) CO_COROUTINE); reflexivity.
Qed.

Lemma is_func_coro_eq (func : pyobject) :
  is_func_coro get_func_codeobj_or_none func =
  Ok match get_func_codeobj_or_none func with
     | None => false
     | Some codeobj => flag_is_set (co_flags codeobj) CO_COROUTINE
     end.
Proof.
  unfold UtilFuncTest.is_func_coro.
  destruct (get_func_codeobj_or_none func) as [codeobj | ];
    [ | reflexivity].
  simpl. rewrite mask_CO_COROUTINE. reflexivity.
Qed.

Lemma is_func_async_generator_eq (func : pyobject) :
  is_func_async_generator get_func_codeobj_or_none func =
  Ok match get_func_codeobj_or_none func with
     | None => false
     | Some codeobj => flag_is_set (co_flags codeobj) CO_ASYNC_GENERATOR
     end.
Proof.
  unfold UtilFuncTest.is_func_async_generator.
  destruct (get_func_codeobj_or_none func) as [codeobj | ];
    [ | reflexivity].
  simpl. rewrite mask_CO_ASYNC_GENERATOR. reflexivity.
Qed.

(** C5: [is_func_async] is a total boolean function.  It returns a
    boolean for every object and never raises; it returns [True] exactly
    when the object owns a code object whose flags include [CO_COROUTINE]
    or [CO_ASYNC_GENERATOR]; it returns [False] for every object without
    a code object. *)
Theorem is_func_async_total_classification (func : pyobject) :
  (exists b : bool, is_func_async get_func_codeobj_or_none func = Ok b)
  /\ (is_func_async get_func_codeobj_or_none func = Ok true
      <-> exists codeobj : codeobject,
            get_func_codeobj_or_none func = Some codeobj
            /\ (flag_is_set (co_flags codeobj) CO_COROUTINE = true
                \/ flag_is_set (co_flags codeobj) CO_ASYNC_GENERATOR
                   = true))
  /\ (is_func_python get_func_codeobj_or_none func = Ok false
      <-> get_func_codeobj_or_none func = None)
  /\ (get_func_codeobj_or_none func = None ->
      is_func_async get_func_codeobj_or_none func = Ok false).
Proof.
  rewrite is_func_async_eq. unfold is_func_python.
  destruct (get_func_codeobj_or_none func) as [codeobj | ]; simpl.
  - repeat split.
    + eexists; reflexivity.
    + intros H. exists codeobj. split; [reflexivity | ].
      injection H as H. apply orb_true_iff. exact H.
    + intros (codeobj' & Heq & Hflags).
      injection Heq as <-. f_equal. apply orb_true_iff. exact Hflags.
    + discriminate.
    + discriminate.
    + discriminate.
  - repeat split.
    + eexists; reflexivity.
    + discriminate.
    + intros (codeobj' & Heq & _). discriminate Heq.
Qed.

(** C8: [is_func_async] returns [True] if and only if [is_func_coro]
    returns [True] or [is_func_async_generator] returns [True]; all three
    testers return a boolean on every object, and the boolean of
    [is_func_async] is the disjunction of the other two. *)
Theorem is_func_async_iff_coro_or_async_generator (func : pyobject) :
  (is_func_async get_func_codeobj_or_none func = Ok true
   <-> is_func_coro get_func_codeobj_or_none func = Ok true
       \/ is_func_async_generator get_func_codeobj_or_none func = Ok true)
  /\ (exists coro agen : bool,
         is_func_coro get_func_codeobj_or_none func = Ok coro
         /\ is_func_async_generator get_func_codeobj_or_none func = Ok agen
         /\ is_func_async get_func_codeobj_or_none func = Ok (coro || agen)).
Proof.
  rewrite is_func_async_eq, is_func_coro_eq, is_func_async_generator_eq.
  destruct (get_func_codeobj_or_none func) as [codeobj | ].
  - destruct (flag_is_set (co_flags codeobj) CO_COROUTINE);
      destruct (flag_is_set (co_flags codeobj) CO_ASYNC_GENERATOR);
      simpl; (split; [ | do 2 eexists; repeat split ]);
      (split; [ intros H; first [ left; exact H
                                | right; exact H
                                | discriminate H ]
              | intros [H | H]; first [ reflexivity
                                      | discriminate H ] ]).
  - split; [ | exists false, false; repeat split ].
    split; [ intros H; discriminate H | intros [H | H]; discriminate H ].
Qed.

(** C9: when [IS_PYTHON_AT_MOST_3_10] is true,
    [is_func_contextlib_contextmanager] returns [False] for every object,
    callable or not. *)
Theorem is_func_contextlib_contextmanager_false_at_most_3_10
    (IS_PYTHON_AT_MOST_3_10 : bool) (func : pyobject) :
  IS_PYTHON_AT_MOST_3_10 = true ->
  is_func_contextlib_contextmanager
    get_func_codeobj_or_none get_func_codeobj_name
    CONTEXTLIB_CONTEXTMANAGER_CODEOBJ_NAME IS_PYTHON_AT_MOST_3_10 func
  = Ok false.
Proof.
  intros ->. reflexivity.
Qed.

(** C10: a callable for which [is_func_closure] returns [True] is one for
    which [is_func_nested] returns [True]. *)
Theorem is_func_closure_implies_is_func_nested (func : pyobject) :
  is_func_closure func = Ok true ->
  is_func_nested func = Ok true.
Proof.
  intros Hclosure. unfold is_func_nested.
  destruct (bind_ok _ _ _ Hclosure) as (u & Hassert & _).
  rewrite Hassert. simpl. rewrite Hclosure. reflexivity.
Qed.

End TesterFacts.

Section TesterExamples.

Import UtilFuncTest Examples.

Lemma is_func_contextlib_contextmanager_false_at_most_3_10_witness :
  true = true
  /\ is_func_contextlib_contextmanager
       (fun _ => Some contextmanager_helper_code)
       (fun codeobj => Ok ("contextmanager.<locals>." ++ co_name codeobj))
       "contextmanager.<locals>.helper" true contextmanager_helper
     = Ok false.
Proof.
  split; [reflexivity | ].
  apply (is_func_contextlib_contextmanager_false_at_most_3_10
           (fun _ => Some contextmanager_helper_code)
           (fun codeobj => Ok ("contextmanager.<locals>." ++ co_name codeobj))
           "contextmanager.<locals>.helper" true contextmanager_helper).
  reflexivity.
Defined.

(** On later interpreters the same closure is detected. *)
Example contextmanager_helper_detected :
  is_func_contextlib_contextmanager
    (fun _ => Some contextmanager_helper_code)
    (fun codeobj => Ok ("contextmanager.<locals>." ++ co_name codeobj))
    "contextmanager.<locals>.helper" false contextmanager_helper
  = Ok true.
Proof. reflexivity. Qed.

Lemma is_func_closure_implies_is_func_nested_witness :
  is_func_closure inner_closure = Ok true
  /\ is_func_nested inner_closure = Ok true.
Proof.
  split; [reflexivity | ].
  apply (is_func_closure_implies_is_func_nested inner_closure).
  reflexivity.
Defined.

(** The converse fails: a method is nested without being a closure. *)
Example nested_but_not_closure :
  is_func_nested plain_method = Ok true
  /\ is_func_closure plain_method = Ok false.
Proof. split; reflexivity. Qed.

End TesterExamples.

(** ** The unsatisfied-pith metadata *)

Section MetadataFacts.

Import DataHintPepMeta.

Lemma isinstance_tuple_true (v : pyval) :
  isinstance_tuple v = true -> exists items, v = PyTuple items.
Proof.
  destruct v; simpl; try discriminate.
  intros _. eexists; reflexivity.
Qed.

Lemma isinstance_str_true (v : pyval) :
  isinstance_str v = true -> exists s, v = PyStr s.
Proof.
  destruct v; simpl; try discriminate.
  intros _. eexists; reflexivity.
Qed.

(** The two assertions made on each tuple of regular expressions. *)
Lemma asserted_tuple_of_str (v : pyval) :
  isinstance_tuple v = true ->
  py_all isinstance_str v = Ok true ->
  tuple_of_str v.
Proof.
  intros Htuple Hall.
  destruct (isinstance_tuple_true v Htuple) as [items ->].
  exists items. split; [reflexivity | ].
  unfold py_all in Hall. simpl in Hall.
  injection Hall as Hall.
  rewrite forallb_forall in Hall.
  apply Forall_forall. intros item Hin.
  apply isinstance_str_true, Hall, Hin.
Qed.

(** C6: constructed with its defaults, the record holds the pith and two
    empty tuples; and every record that [__init__] constructs holds the
    pith it was passed, unchanged, and the two arguments (or their
    default, the empty tuple), each of which is a tuple whose items are
    all strings. *)
Theorem unsatisfied_metadata_regexes_are_tuples_of_str :
  (forall pith_arg : pyval,
      PepHintPithUnsatisfiedMetadata_init pith_arg None None
      = Ok {| pith := pith_arg;
              exception_str_match_regexes := PyTuple [];
              exception_str_not_match_regexes := PyTuple [] |})
  /\ (forall (pith_arg : pyval) (match_arg not_match_arg : option pyval)
             (meta : PepHintPithUnsatisfiedMetadata),
         PepHintPithUnsatisfiedMetadata_init
           pith_arg match_arg not_match_arg = Ok meta ->
         pith meta = pith_arg
         /\ exception_str_match_regexes meta
            = arg_or_default match_arg (PyTuple [])
         /\ exception_str_not_match_regexes meta
            = arg_or_default not_match_arg (PyTuple [])
         /\ tuple_of_str (exception_str_match_regexes meta)
         /\ tuple_of_str (exception_str_not_match_regexes meta)).
Proof.
  split; [reflexivity | ].
  intros pith_arg match_arg not_match_arg meta Hinit.
  unfold PepHintPithUnsatisfiedMetadata_init in Hinit.
  apply bind_ok in Hinit. destruct Hinit as (u1 & Htuple1 & Hinit).
  apply bind_ok in Hinit. destruct Hinit as (u2 & Htuple2 & Hinit).
  apply bind_ok in Hinit. destruct Hinit as (all1 & Hall1 & Hinit).
  apply bind_ok in Hinit. destruct Hinit as (u3 & Hassert1 & Hinit).
  apply bind_ok in Hinit. destruct Hinit as (all2 & Hall2 & Hinit).
  apply bind_ok in Hinit. destruct Hinit as (u4 & Hassert2 & Hinit).
  apply py_assert_ok in Htuple1, Htuple2, Hassert1, Hassert2.
  subst all1 all2.
  injection Hinit as <-. simpl.
  repeat split;
    first [ reflexivity
          | apply asserted_tuple_of_str; assumption ].
Qed.

Lemma unsatisfied_metadata_regexes_are_tuples_of_str_witness :
  PepHintPithUnsatisfiedMetadata_init
    (PyInt 7) (Some (PyTuple [PyStr "int"; PyStr "str"])) None
  = Ok {| pith := PyInt 7;
          exception_str_match_regexes := PyTuple [PyStr "int"; PyStr "str"];
          exception_str_not_match_regexes := PyTuple [] |}
  /\ tuple_of_str (PyTuple [PyStr "int"; PyStr "str"]).
Proof.
  split; [reflexivity | ].
  apply (proj2 unsatisfied_metadata_regexes_are_tuples_of_str
           (PyInt 7) (Some (PyTuple [PyStr "int"; PyStr "str"])) None
           {| pith := PyInt 7;
              exception_str_match_regexes :=
                PyTuple [PyStr "int"; PyStr "str"];
              exception_str_not_match_regexes := PyTuple [] |}).
  reflexivity.
Defined.

(** Arguments that the assertions reject: a list instead of a tuple, and
    a tuple with an item that is not a string. *)
Example list_of_regexes_rejected :
  PepHintPithUnsatisfiedMetadata_init
    (PyInt 7) (Some (PyList [PyStr "int"])) None
  = Raise AssertionError.
Proof. reflexivity. Qed.

Example non_string_regex_rejected :
  PepHintPithUnsatisfiedMetadata_init
    (PyInt 7) None (Some (PyTuple [PyStr "int"; PyInt 0]))
  = Raise AssertionError.
Proof. reflexivity. Qed.

End MetadataFacts.

(** ** The shape classifier *)

Section ClassifierFacts.

Import Classifier.

(** No member of a flattened union is itself a union. *)
Lemma union_members_flat :
  forall h : Hint,
    Forall (fun member => is_union member = false) (union_members h).
Proof.
  fix IHhint 1.
  intros h.
  destruct h as [ type_id | members | elem | elems | key value
                | bound constraints | name | values | params ret
                | description ];
    try (constructor; [reflexivity | constructor]).
  simpl. induction members as [ | member members IH]; simpl.
  - constructor.
  - apply Forall_app. split.
    + apply IHhint.
    + exact IH.
Qed.

Lemma ordered_set_incl (seen hs : list Hint) (h : Hint) :
  In h (ordered_set seen hs) -> In h hs.
Proof.
  revert seen.
  induction hs as [ | k rest IH]; intros seen; simpl.
  - intros [].
  - destruct (existsb (hint_eqb k) seen).
    + intros Hin. right. exact (IH _ Hin).
    + intros [-> | Hin]; [left; reflexivity | right; exact (IH _ Hin)].
Qed.

(** Flattening splices the members of a nested union in place. *)
Lemma union_members_nested (inner rest : list Hint) :
  union_members (HUnion (HUnion inner :: rest))
  = union_members (HUnion (inner ++ rest)).
Proof.
  simpl. rewrite flat_map_app. reflexivity.
Qed.

(** The shape of a union depends on its flattened members only. *)
Lemma classify_union_ext (hs ks : list Hint) :
  union_members (HUnion hs) = union_members (HUnion ks) ->
  classify (HUnion hs) = classify (HUnion ks).
Proof.
  unfold classify. intros ->. reflexivity.
Qed.

(** The members of a shape [Union] are flat, and there are at least two
    of them. *)
Lemma classify_union_flat (h : Hint) (members : list Hint) :
  classify h = Union members ->
  Forall (fun member => is_union member = false) members
  /\ 2 <= List.length members.
Proof.
  assert (Hflat := union_members_flat h).
  rewrite Forall_forall in Hflat.
  destruct h; simpl; try discriminate.
  match goal with
  | |- context [ordered_set [] ?l] =>
      assert (Hincl := fun k => ordered_set_incl [] l k);
      destruct (ordered_set [] l) as [ | first [ | second others]]
  end.
  - discriminate.
  - intros Hshape.
    assert (Hfirst : is_union first = false)
      by (apply Hflat, Hincl; left; reflexivity).
    destruct first; simpl in Hshape; try discriminate Hshape.
    discriminate Hfirst.
  - intros Hshape. injection Hshape as <-. split.
    + apply Forall_forall. intros k Hin. apply Hflat, Hincl, Hin.
    + simpl. lia.
Qed.

(** C7: a union that contains a nested union is classified as the
    flattened union: [classify(Union(Union(A,B), C))] equals
    [classify(Union(A,B,C))]. *)
Theorem classify_union_flattening (A B C : Hint) :
  classify (HUnion [HUnion [A; B]; C]) = classify (HUnion [A; B; C]).
Proof.
  apply classify_union_ext.
  apply (union_members_nested [A; B] [C]).
Qed.

(** A union of one member has the shape of that member. *)
Lemma classify_union_degenerate (A : Hint) :
  classify (HUnion [A]) = classify A.
Proof.
  destruct A; try reflexivity.
  apply classify_union_ext. simpl. apply app_nil_r.
Qed.

Example nested_union_of_primitives_shape :
  classify (HUnion [HUnion [HPrimitive "int"; HPrimitive "str"];
                    HPrimitive "int"])
  = Union [HPrimitive "int"; HPrimitive "str"].
Proof. reflexivity. Qed.

End ClassifierFacts.


(** * Further properties of the embedded code *)

(** ** Strings *)

(** The substring test for a needle of one character is the test that the
    character occurs. *)
Lemma str_in_char (c : Ascii.ascii) (haystack : string) :
  UtilFuncTest.str_in (String c EmptyString) haystack = true
  <-> In c (list_ascii_of_string haystack).
Proof.
  induction haystack as [ | d rest IH]; simpl.
  - split; [discriminate | intros []].
  - destruct (Ascii.ascii_dec c d) as [-> | Hne]; simpl.
    + split; [intros _; left; reflexivity | ].
      intros _. destruct rest; reflexivity.
    + rewrite IH. split.
      * intros Hin. right. exact Hin.
      * intros [Heq | Hin]; [congruence | exact Hin].
Qed.

(** ** The testers of [UtilFuncTest], continued *)

Section SyncGenerator.

Import UtilFuncTest.

Variable get_func_codeobj_or_none : pyobject -> option codeobject.

Lemma mask_CO_GENERATOR (flags : Z) :
  negb (Z.land flags CO_GENERATOR =? 0)%Z = flag_is_set flags CO_GENERATOR.
Proof.
  change CO_GENERATOR with (2 ^ 5)%Z at 1.
  rewrite land_pow2_eqb_0 by lia.
  apply negb_involutive.
Qed.

(** X1: [is_func_sync_generator] never raises.  It returns [True] exactly
    for a callable object that owns a code object with the flag
    [CO_GENERATOR]: an object that is not callable is rejected even when its
    code object has the flag. *)
Theorem is_func_sync_generator_outcome (func : pyobject) :
  is_func_sync_generator get_func_codeobj_or_none func
  = Ok (py_callable func
        && match get_func_codeobj_or_none func with
           | None => false
           | Some codeobj => flag_is_set (co_flags codeobj) CO_GENERATOR
           end).
Proof.
  unfold is_func_sync_generator.
  destruct (py_callable func); simpl; [ | reflexivity].
  destruct (get_func_codeobj_or_none func) as [codeobj | ]; simpl;
    [ | reflexivity].
  rewrite mask_CO_GENERATOR. reflexivity.
Qed.

End SyncGenerator.

Section Nesting.

Import UtilFuncTest.

(** The callable has a [__closure__] attribute bound to a tuple of cells. *)
Lemma is_func_closure_true (func : pyobject) :
  is_func_closure func = Ok true
  <-> py_callable func = true
      /\ exists cells, py___closure__ func = Defined (Some cells).
Proof.
  unfold is_func_closure, py_assert.
  destruct (py_callable func); simpl.
  - destruct (py___closure__ func) as [ | [cells | ]]; simpl.
    + split; [discriminate | intros (_ & cells & H); discriminate H].
    + split; [intros _; split; [reflexivity | eexists; reflexivity]
             | reflexivity].
    + split; [discriminate | intros (_ & cells & H); discriminate H].
  - split; [discriminate | intros (H & _); discriminate H].
Qed.

Lemma is_func_closure_false (func : pyobject) :
  is_func_closure func = Ok false
  <-> py_callable func = true
      /\ (py___closure__ func = Undefined
          \/ py___closure__ func = Defined None).
Proof.
  unfold is_func_closure, py_assert.
  destruct (py_callable func); simpl.
  - destruct (py___closure__ func) as [ | [cells | ]]; simpl.
    + split; [intros _; split; [reflexivity | left; reflexivity]
             | reflexivity].
    + split; [discriminate | intros (_ & [H | H]); discriminate H].
    + split; [intros _; split; [reflexivity | right; reflexivity]
             | reflexivity].
  - split; [discriminate | intros (H & _); discriminate H].
Qed.



End Nesting.

Section MoreTesterFacts.

Import UtilFuncTest UtilFuncTestMore.

Variable get_func_codeobj_or_none : pyobject -> option codeobject.
Variable get_func_codeobj_name : codeobject -> result string.
Variable CONTEXTLIB_CONTEXTMANAGER_CODEOBJ_NAME : string.
Variable IS_PYTHON_AT_MOST_3_10 : bool.
Variable is_func_arg_variadic_positional : codeobject -> result bool.
Variable is_func_arg_variadic_keyword : codeobject -> result bool.
Variable py___name__ : pyobject -> attr string.

Lemma is_func_python_true (func : pyobject) :
  is_func_python get_func_codeobj_or_none func = Ok true
  <-> exists codeobj, get_func_codeobj_or_none func = Some codeobj.
Proof.
  unfold is_func_python.
  destruct (get_func_codeobj_or_none func) as [codeobj | ]; simpl.
  - split; [intros _; eexists; reflexivity | reflexivity].
  - split; [discriminate | intros (codeobj & H); discriminate H].
Qed.

(** X4: [is_func_lambda] returns [False], without reading [__name__], for
    every object that owns no code object; it returns [True] exactly when
    the object owns a code object and its [__name__] is ["<lambda>"]; it
    raises [AttributeError] exactly when the object owns a code object and
    has no [__name__], and raises nothing else. *)
Theorem is_func_lambda_outcome (func : pyobject) :
  (get_func_codeobj_or_none func = None ->
   is_func_lambda get_func_codeobj_or_none py___name__ func = Ok false)
  /\ (is_func_lambda get_func_codeobj_or_none py___name__ func = Ok true
      <-> (exists codeobj, get_func_codeobj_or_none func = Some codeobj)
          /\ py___name__ func = Defined "<lambda>")
  /\ (forall e : pyexc,
         is_func_lambda get_func_codeobj_or_none py___name__ func = Raise e
         <-> e = AttributeError
             /\ (exists codeobj,
                    get_func_codeobj_or_none func = Some codeobj)
             /\ py___name__ func = Undefined).
Proof.
  unfold is_func_lambda, is_func_python.
  destruct (get_func_codeobj_or_none func) as [codeobj | ]; simpl.
  - split; [discriminate | ].
    destruct (py___name__ func) as [ | name]; simpl.
    + split.
      * split; [discriminate | intros (_ & H); discriminate H].
      * intros e. split.
        -- intros H. injection H as <-.
           repeat split. eexists; reflexivity.
        -- intros (-> & _). reflexivity.
    + split.
      * split.
        -- intros H. injection H as H. apply String.eqb_eq in H. subst name.
           split; [eexists; reflexivity | reflexivity].
        -- intros (_ & H). injection H as ->. reflexivity.
      * intros e. split; [discriminate | intros (_ & _ & H); discriminate H].
  - split; [reflexivity | ].
    split.
    + split; [discriminate | intros ((codeobj & H) & _); discriminate H].
    + intros e. split; [discriminate | ].
      intros (_ & (codeobj & H) & _). discriminate H.
Qed.

(** X5: [is_func_closure_isomorphic] returns [True] exactly when
    [is_func_closure] returns [True], the object owns a code object, and
    both testers of variadic arguments return [True] on that code
    object. *)
Theorem is_func_closure_isomorphic_true_iff (func : pyobject) :
  is_func_closure_isomorphic get_func_codeobj_or_none
    is_func_arg_variadic_positional is_func_arg_variadic_keyword func
  = Ok true
  <-> is_func_closure func = Ok true
      /\ exists codeobj,
           get_func_codeobj_or_none func = Some codeobj
           /\ is_func_arg_variadic_positional codeobj = Ok true
           /\ is_func_arg_variadic_keyword codeobj = Ok true.
Proof.
  unfold is_func_closure_isomorphic.
  destruct (is_func_closure func) as [[ | ] | e]; simpl;
    [ | split; [discriminate | intros (H & _); discriminate H] .. ].
  destruct (get_func_codeobj_or_none func) as [codeobj | ]; simpl.
  - destruct (is_func_arg_variadic_positional codeobj)
      as [[ | ] | e] eqn:Hpositional; simpl.
    + split.
      * intros H. split; [reflexivity | ].
        exists codeobj.
        split; [reflexivity | split; [exact Hpositional | exact H]].
      * intros (_ & codeobj' & Heq & _ & H).
        injection Heq as <-. exact H.
    + split; [discriminate | ].
      intros (_ & codeobj' & Heq & H & _).
      injection Heq as <-. congruence.
    + split; [discriminate | ].
      intros (_ & codeobj' & Heq & H & _).
      injection Heq as <-. congruence.
  - split; [discriminate | ].
    intros (_ & codeobj' & Heq & _). discriminate Heq.
Qed.

(** X6: [is_func_contextlib_contextmanager] returns [True] exactly when the
    interpreter is newer than Python 3.10, [is_func_closure] returns
    [True], the object owns a code object, and the fully-qualified name of
    that code object is [CONTEXTLIB_CONTEXTMANAGER_CODEOBJ_NAME]. *)
Theorem is_func_contextlib_contextmanager_true_iff (func : pyobject) :
  is_func_contextlib_contextmanager get_func_codeobj_or_none
    get_func_codeobj_name CONTEXTLIB_CONTEXTMANAGER_CODEOBJ_NAME
    IS_PYTHON_AT_MOST_3_10 func
  = Ok true
  <-> IS_PYTHON_AT_MOST_3_10 = false
      /\ is_func_closure func = Ok true
      /\ exists codeobj,
           get_func_codeobj_or_none func = Some codeobj
           /\ get_func_codeobj_name codeobj
              = Ok CONTEXTLIB_CONTEXTMANAGER_CODEOBJ_NAME.
Proof.
  unfold is_func_contextlib_contextmanager.
  destruct IS_PYTHON_AT_MOST_3_10; simpl.
  - split; [discriminate | intros (H & _); discriminate H].
  - destruct (is_func_closure func) as [[ | ] | e]; simpl;
      [ | split; [discriminate | intros (_ & H & _); discriminate H] .. ].
    destruct (get_func_codeobj_or_none func) as [codeobj | ]; simpl.
    + destruct (get_func_codeobj_name codeobj) as [name | e] eqn:Hname;
        simpl.
      * split.
        -- intros H. injection H as H. apply String.eqb_eq in H.
           subst name. repeat split. exists codeobj.
           split; [reflexivity | exact Hname].
        -- intros (_ & _ & codeobj' & Heq & H).
           injection Heq as <-. rewrite Hname in H. injection H as ->.
           rewrite String.eqb_refl. reflexivity.
      * split; [discriminate | ].
        intros (_ & _ & codeobj' & Heq & H).
        injection Heq as <-. congruence.
    + split; [discriminate | ].
      intros (_ & _ & codeobj' & Heq & _). discriminate Heq.
Qed.

(** X7: [is_func_contextlib_contextmanager] raises only on an interpreter
    newer than Python 3.10: [AssertionError] when the object is not
    callable, and otherwise only what reading the name of the code object of
    a closure raises.  On Python 3.10 or older it never raises. *)
Theorem is_func_contextlib_contextmanager_raises
    (func : pyobject) (e : pyexc) :
  is_func_contextlib_contextmanager get_func_codeobj_or_none
    get_func_codeobj_name CONTEXTLIB_CONTEXTMANAGER_CODEOBJ_NAME
    IS_PYTHON_AT_MOST_3_10 func
  = Raise e
  <-> IS_PYTHON_AT_MOST_3_10 = false
      /\ ((e = AssertionError /\ py_callable func = false)
          \/ (is_func_closure func = Ok true
              /\ exists codeobj,
                   get_func_codeobj_or_none func = Some codeobj
                   /\ get_func_codeobj_name codeobj = Raise e)).
Proof.
  unfold is_func_contextlib_contextmanager.
  destruct IS_PYTHON_AT_MOST_3_10; simpl.
  - split; [discriminate | intros (H & _); discriminate H].
  - unfold is_func_closure at 1, py_assert.
    destruct (py_callable func) eqn:Hcallable; simpl.
    + destruct (is_not_none _) eqn:Hclosure; simpl.
      * assert (Hc : is_func_closure func = Ok true)
          by (unfold is_func_closure, py_assert;
              rewrite Hcallable; simpl; rewrite Hclosure; reflexivity).
        destruct (get_func_codeobj_or_none func) as [codeobj | ]; simpl.
        -- destruct (get_func_codeobj_name codeobj) as [name | e']
             eqn:Hname; simpl.
           ++ split; [discriminate | ].
              intros (_ & [(_ & H) | (_ & codeobj' & Heq & H)]);
                [discriminate H | ].
              injection Heq as <-. congruence.
           ++ split.
              ** intros H. injection H as <-.
                 split; [reflexivity | right].
                 split; [exact Hc | ].
                 exists codeobj. split; [reflexivity | exact Hname].
              ** intros (_ & [(_ & H) | (_ & codeobj' & Heq & H)]);
                   [discriminate H | ].
                 injection Heq as <-. congruence.
        -- split; [discriminate | ].
           intros (_ & [(_ & H) | (_ & codeobj' & Heq & _)]);
             [discriminate H | discriminate Heq].
      * assert (Hc : is_func_closure func = Ok false)
          by (unfold is_func_closure, py_assert;
              rewrite Hcallable; simpl; rewrite Hclosure; reflexivity).
        split; [discriminate | ].
        intros (_ & [(_ & H) | (H & _)]); [discriminate H | congruence].
    + assert (Hc : is_func_closure func = Raise AssertionError)
        by (unfold is_func_closure, py_assert;
            rewrite Hcallable; reflexivity).
      split.
      * intros H. injection H as <-.
        split; [reflexivity | left; split; reflexivity].
      * intros (_ & [(-> & _) | (H & _)]); [reflexivity | congruence].
Qed.

(** X8: whenever one of the specialised testers ([is_func_async],
    [is_func_coro], [is_func_async_generator], [is_func_sync_generator],
    [is_func_lambda], [is_func_closure_isomorphic],
    [is_func_contextlib_contextmanager]) returns [True], [is_func_python]
    returns [True] as well. *)
Theorem specialised_tester_implies_is_func_python (func : pyobject) :
  is_func_async get_func_codeobj_or_none func = Ok true
  \/ is_func_coro get_func_codeobj_or_none func = Ok true
  \/ is_func_async_generator get_func_codeobj_or_none func = Ok true
  \/ is_func_sync_generator get_func_codeobj_or_none func = Ok true
  \/ is_func_lambda get_func_codeobj_or_none py___name__ func = Ok true
  \/ is_func_closure_isomorphic get_func_codeobj_or_none
       is_func_arg_variadic_positional is_func_arg_variadic_keyword func
     = Ok true
  \/ is_func_contextlib_contextmanager get_func_codeobj_or_none
       get_func_codeobj_name CONTEXTLIB_CONTEXTMANAGER_CODEOBJ_NAME
       IS_PYTHON_AT_MOST_3_10 func
     = Ok true ->
  is_func_python get_func_codeobj_or_none func = Ok true.
Proof.
  intros H. unfold is_func_python.
  destruct (get_func_codeobj_or_none func) as [codeobj | ] eqn:Hcode;
    [reflexivity | exfalso].
  destruct H as [H | [H | [H | [H | [H | [H | H]]]]]].
  - unfold is_func_async in H. rewrite Hcode in H. discriminate H.
  - unfold is_func_coro in H. rewrite Hcode in H. discriminate H.
  - unfold is_func_async_generator in H. rewrite Hcode in H.
    discriminate H.
  - unfold is_func_sync_generator in H. rewrite Hcode in H.
    destruct (py_callable func); discriminate H.
  - unfold is_func_lambda, is_func_python in H. rewrite Hcode in H.
    discriminate H.
  - unfold is_func_closure_isomorphic in H. rewrite Hcode in H.
    destruct (is_func_closure func) as [[ | ] | e]; discriminate H.
  - unfold is_func_contextlib_contextmanager in H. rewrite Hcode in H.
    destruct IS_PYTHON_AT_MOST_3_10; simpl in H; [discriminate H | ].
    destruct (is_func_closure func) as [[ | ] | e]; discriminate H.
Qed.

End MoreTesterFacts.

(** ** The validators *)

Section ValidatorFacts.

Import UtilFuncTest UtilFuncTestMore.

Variable get_func_codeobj_or_none : pyobject -> option codeobject.
Variable repr : pyobject -> string.
Variable isinstance : pyobject -> descriptor_class -> bool.
Variable pyclass : Type.
Variable issubclass_Exception : pyclass -> bool.
Variable _BeartypeUtilCallableException : pyclass.

(** The arguments [exception_cls] and [exception_prefix] pass the three
    assertions exactly when the first is a subclass of [Exception] and the
    second a string. *)
Lemma assert_exception_args_returns
    (exception_cls : class_arg pyclass) (exception_prefix : pyval)
    (cls : pyclass) (prefix : string) :
  assert_exception_args pyclass issubclass_Exception
    exception_cls exception_prefix = Returns (cls, prefix)
  <-> exception_cls = ClassObject cls
      /\ issubclass_Exception cls = true
      /\ exception_prefix = PyStr prefix.
Proof.
  unfold assert_exception_args.
  destruct exception_cls as [c | v]; simpl.
  - destruct (issubclass_Exception c) eqn:Hsub; simpl.
    + destruct exception_prefix; simpl;
        (split;
         [ intros H; first [ discriminate H | injection H as <- <- ];
           repeat split; assumption
         | intros (Hc & _ & Hp);
           first [ discriminate Hp
                 | injection Hc as <-; injection Hp as <-; reflexivity ] ]).
    + split; [discriminate | ].
      intros (Hc & H & _). injection Hc as <-. congruence.
  - split; [discriminate | intros (H & _); discriminate H].
Qed.

Lemma assert_exception_args_raises
    (exception_cls : class_arg pyclass) (exception_prefix : pyval)
    (r : raised pyclass) :
  assert_exception_args pyclass issubclass_Exception
    exception_cls exception_prefix = Raises r ->
  r = Builtin AssertionError.
Proof.
  unfold assert_exception_args.
  destruct exception_cls as [c | v]; simpl.
  - destruct (issubclass_Exception c); simpl.
    + destruct exception_prefix; simpl; intros H;
        first [ discriminate H | injection H as <-; reflexivity ].
    + intros H. injection H as <-. reflexivity.
  - intros H. injection H as <-. reflexivity.
Qed.

(** X9: [die_unless_func_python] returns normally exactly when
    [is_func_python] returns [True], whatever is passed as [exception_cls]
    and [exception_prefix]: these arguments are not checked on that
    path. *)
Theorem die_unless_func_python_returns_iff
    (func : pyobject) (exception_cls : option (class_arg pyclass))
    (exception_prefix : option pyval) :
  die_unless_func_python get_func_codeobj_or_none repr pyclass
    issubclass_Exception _BeartypeUtilCallableException
    func exception_cls exception_prefix
  = Returns tt
  <-> is_func_python get_func_codeobj_or_none func = Ok true.
Proof.
  unfold die_unless_func_python, is_func_python.
  destruct (get_func_codeobj_or_none func) as [codeobj | ]; simpl.
  - split; reflexivity.
  - split; [ | discriminate].
    destruct (assert_exception_args _ _ _ _) as [[cls prefix] | r]; simpl.
    + destruct (py_callable func); discriminate.
    + discriminate.
Qed.



(** X12: each of [die_unless_func_classmethod], [die_unless_func_property]
    and [die_unless_func_staticmethod] returns normally exactly when
    [isinstance] holds of the object and the descriptor class of the
    validator, whatever the other arguments are. *)
Theorem die_unless_func_descriptor_returns_iff
    (func : pyobject) (exception_cls : option (class_arg pyclass))
    (exception_prefix : option pyval) :
  (die_unless_func_classmethod repr isinstance pyclass
     issubclass_Exception _BeartypeUtilCallableException
     func exception_cls exception_prefix = Returns tt
   <-> isinstance func classmethod = true)
  /\ (die_unless_func_property repr isinstance pyclass
        issubclass_Exception _BeartypeUtilCallableException
        func exception_cls exception_prefix = Returns tt
      <-> isinstance func property = true)
  /\ (die_unless_func_staticmethod repr isinstance pyclass
        issubclass_Exception _BeartypeUtilCallableException
        func exception_cls exception_prefix = Returns tt
      <-> isinstance func staticmethod = true).
Proof.
  unfold die_unless_func_classmethod, die_unless_func_property,
    die_unless_func_staticmethod, is_func_classmethod, is_func_property,
    is_func_staticmethod.
  repeat split; simpl;
    try (intros H;
         match goal with
         | |- isinstance func ?k = true =>
             destruct (isinstance func k); [reflexivity | ]
         end;
         simpl in H;
         destruct (assert_exception_args _ _ _ _) as [[cls prefix] | r];
         discriminate H);
    intros ->; reflexivity.
Qed.


End ValidatorFacts.

Section MoreTesterExamples.

Import UtilFuncTest UtilFuncTestMore Examples MoreExamples.

Lemma specialised_tester_implies_is_func_python_witness :
  is_func_sync_generator (always_code generator_code) plain_function
  = Ok true
  /\ is_func_python (always_code generator_code) plain_function = Ok true.
Proof.
  split; [reflexivity | ].
  apply (specialised_tester_implies_is_func_python
           (always_code generator_code)
           (fun codeobj => Ok (co_name codeobj)) "helper" false
           has_varargs has_varkeywords name_is_qualname plain_function).
  right; right; right; left. reflexivity.
Defined.

(** A generator object, which is not callable, is no generator function,
    although its code object has the flag [CO_GENERATOR]. *)
Example generator_object_is_no_sync_generator :
  is_func_sync_generator (always_code generator_code) generator_object
  = Ok false.
Proof. reflexivity. Qed.

(** The closure of [contextlib.contextmanager] takes variadic positional
    and keyword arguments: it is an isomorphic closure. *)
Example contextmanager_helper_is_isomorphic :
  is_func_closure_isomorphic (always_code contextmanager_helper_code)
    has_varargs has_varkeywords contextmanager_helper
  = Ok true.
Proof. reflexivity. Qed.

(** A callable without [__qualname__] and without [__closure__]. *)
Example is_func_nested_partial_object :
  is_func_nested partial_object = Raise AttributeError.
Proof. reflexivity. Qed.




(** A class that is no subclass of [Exception] fails the second
    assertion. *)
Example die_unless_func_python_rejects_object_class :
  die_unless_func_python never_code repr_qualname Roar.cls
    issubclass_Exception Roar._BeartypeUtilException c_builtin
    (Some (ClassObject Roar.object)) None
  = Raises (Builtin AssertionError).
Proof. reflexivity. Qed.

End MoreTesterExamples.

(** ** The hint metadata *)

(** Inverts [H : (x <- m ;; k) = Ok b] as long as it is a [bind]. *)
Ltac bind_inversion H :=
  repeat match type of H with
         | bind _ _ = Ok _ =>
             let x := fresh "x" in
             let Hx := fresh "Hx" in
             apply bind_ok in H; destruct H as (x & Hx & H)
         end.

Section UnsatisfiedMetadataOutcome.

Import DataHintPepMeta.

Lemma tuple_of_str_forallb (v : pyval) :
  tuple_of_str v
  <-> exists items, v = PyTuple items /\ forallb isinstance_str items = true.
Proof.
  unfold tuple_of_str. split; intros (items & -> & H); exists items;
    (split; [reflexivity | ]).
  - apply forallb_forall. rewrite Forall_forall in H.
    intros item Hin. destruct (H item Hin) as [s ->]. reflexivity.
  - apply Forall_forall. rewrite forallb_forall in H.
    intros item Hin. apply isinstance_str_true, H, Hin.
Qed.

(** X14: [PepHintPithUnsatisfiedMetadata.__init__] succeeds exactly when
    both arguments (or their defaults) are tuples whose items are all
    strings; otherwise it raises [AssertionError], and never anything
    else, whatever objects are passed. *)
Theorem unsatisfied_metadata_init_outcome
    (pith_arg : pyval) (match_arg not_match_arg : option pyval) :
  ((exists meta,
       PepHintPithUnsatisfiedMetadata_init pith_arg match_arg not_match_arg
       = Ok meta)
   <-> tuple_of_str (arg_or_default match_arg (PyTuple []))
       /\ tuple_of_str (arg_or_default not_match_arg (PyTuple [])))
  /\ (forall e : pyexc,
         PepHintPithUnsatisfiedMetadata_init
           pith_arg match_arg not_match_arg = Raise e ->
         e = AssertionError).
Proof.
  split.
  - split.
    + intros (meta & H).
      unfold PepHintPithUnsatisfiedMetadata_init in H.
      bind_inversion H.
      repeat match goal with
             | Hassert : py_assert _ = Ok _ |- _ =>
                 apply py_assert_ok in Hassert
             end.
      subst. split; apply asserted_tuple_of_str; assumption.
    + intros (Hm & Hn).
      apply tuple_of_str_forallb in Hm, Hn.
      destruct Hm as (ms & Hm & Hms). destruct Hn as (ns & Hn & Hns).
      unfold PepHintPithUnsatisfiedMetadata_init.
      rewrite Hm, Hn. unfold py_all. simpl. rewrite Hms, Hns. simpl.
      eexists; reflexivity.
  - intros e. unfold PepHintPithUnsatisfiedMetadata_init.
    destruct (arg_or_default match_arg (PyTuple [])) as [ | | | | ms | ];
      simpl; try (intros H; injection H as <-; reflexivity).
    destruct (arg_or_default not_match_arg (PyTuple [])) as [ | | | | ns | ];
      simpl; try (intros H; injection H as <-; reflexivity).
    unfold py_all. simpl.
    destruct (forallb isinstance_str ms); simpl;
      [ | intros H; injection H as <-; reflexivity].
    destruct (forallb isinstance_str ns); simpl;
      [discriminate | intros H; injection H as <-; reflexivity].
Qed.

End UnsatisfiedMetadataOutcome.

Section HintMetadataFacts.

Import DataHintPepMeta DataHintPepMetaMore.

Lemma dict_get_dict_set (key : string) (v : pyobj) (d : kwargs) :
  dict_get key (dict_set key v d) = Some v.
Proof.
  induction d as [ | [k w] rest IH]; simpl.
  - rewrite String.eqb_refl. reflexivity.
  - destruct (String.eqb k key) eqn:Hk; simpl.
    + rewrite String.eqb_refl. reflexivity.
    + rewrite Hk. exact IH.
Qed.

Lemma dict_set_dict_set (key : string) (v w : pyobj) (d : kwargs) :
  dict_set key w (dict_set key v d) = dict_set key w d.
Proof.
  induction d as [ | [k x] rest IH]; simpl.
  - rewrite String.eqb_refl. reflexivity.
  - destruct (String.eqb k key) eqn:Hk; simpl.
    + rewrite String.eqb_refl. reflexivity.
    + rewrite Hk, IH. reflexivity.
Qed.

Lemma bind_param_positional_and_keyword
    (index : nat) (name : string) (default : option pyobj)
    (args : list pyobj) (kw : kwargs) (arg v : pyobj) :
  nth_error args index = Some arg ->
  dict_get name kw = Some v ->
  bind_param index name default args kw = Raise TypeError.
Proof.
  intros Harg Hkw. unfold bind_param. rewrite Harg, Hkw. reflexivity.
Qed.

Lemma obj_all_tuple_of_unsatisfied (v : pyobj) :
  isinstance_tuple v = true ->
  obj_all isinstance_PepHintPithUnsatisfiedMetadata v = Ok true ->
  tuple_of_unsatisfied v.
Proof.
  destruct v; simpl; try discriminate.
  intros _ Hall. unfold obj_all in Hall. simpl in Hall.
  injection Hall as Hall. rewrite forallb_forall in Hall.
  exists items. split; [reflexivity | ].
  apply Forall_forall. intros item Hin.
  specialize (Hall item Hin).
  destruct item; simpl in Hall; try discriminate Hall.
  eexists; reflexivity.
Qed.

(** X15: every record that [PepHintMetadata.__init__] constructs holds
    booleans in [is_supported], [is_pep484_generic] and [is_typevared], a
    tuple in [piths_satisfied], a tuple of [PepHintPithUnsatisfiedMetadata]
    instances in [piths_unsatisfied_meta], and a class or [None] in
    [type_origin]. *)
Theorem hint_metadata_fields_are_typed
    (args : list pyobj) (kw : kwargs) (meta : PepHintMetadata) :
  PepHintMetadata_init args kw = Ok meta ->
  (exists b, is_supported meta = OBool b)
  /\ (exists b, is_pep484_generic meta = OBool b)
  /\ (exists b, is_typevared meta = OBool b)
  /\ (exists items, piths_satisfied meta = OTuple items)
  /\ tuple_of_unsatisfied (piths_unsatisfied_meta meta)
  /\ (type_origin meta = ONone
      \/ exists name, type_origin meta = OType name).
Proof.
  intros H. unfold PepHintMetadata_init in H.
  bind_inversion H.
  repeat match goal with
         | Hassert : py_assert _ = Ok _ |- _ =>
             apply py_assert_ok in Hassert
         end.
  injection H as <-. simpl. subst.
  repeat match goal with
         | Hb : isinstance_bool ?v = true |- _ =>
             destruct v; try discriminate Hb; clear Hb
         end.
  repeat split; try (eexists; reflexivity).
  - match goal with
    | Ht : isinstance_tuple ?v = true |- exists items, ?v = _ =>
        destruct v; try discriminate Ht; eexists; reflexivity
    end.
  - apply obj_all_tuple_of_unsatisfied; assumption.
  - match goal with
    | Ht : isinstance_type_or_NoneType ?v = true |- _ =>
        destruct v; try discriminate Ht;
          [left; reflexivity | right; eexists; reflexivity]
    end.
Qed.

(** X16: [PepHintMetadata] requires [pep_sign]: constructed without
    positional arguments and without the keyword [pep_sign] it raises
    [TypeError]; constructed with [pep_sign] alone, passed by position or
    by keyword, it keeps that object and the defaults of the signature. *)
Theorem hint_metadata_pep_sign_mandatory :
  (forall kw : kwargs,
      dict_get "pep_sign" kw = None ->
      PepHintMetadata_init [] kw = Raise TypeError)
  /\ (forall sign : pyobj,
         PepHintMetadata_init [sign] []
         = Ok {| pep_sign := sign;
                 is_supported := OBool true;
                 is_pep484_generic := OBool false;
                 is_typevared := OBool false;
                 piths_satisfied := OTuple [];
                 piths_unsatisfied_meta := OTuple [];
                 type_origin := ONone |}
         /\ PepHintMetadata_init [] [("pep_sign", sign)]
            = PepHintMetadata_init [sign] []).
Proof.
  split.
  - intros kw Hkw. unfold PepHintMetadata_init.
    destruct (check_call PepHintMetadata_params [] kw) as [u | e] eqn:Hcheck;
      simpl.
    + unfold bind_param at 1. simpl. rewrite Hkw. reflexivity.
    + unfold check_call in Hcheck.
      destruct (_ && _); [discriminate Hcheck | ].
      injection Hcheck as <-. reflexivity.
  - intros sign. split; reflexivity.
Qed.

(** X17: [PepHintClassedMetadata] accepts no positional argument: it raises
    [TypeError] whenever one is passed, since [pep_sign] is then given both
    by position and by keyword.  Every record it constructs has [pep_sign]
    equal to [None]. *)
Theorem classed_metadata_pep_sign_is_None
    (args : list pyobj) (kw : kwargs) :
  (args <> [] -> PepHintClassedMetadata_init args kw = Raise TypeError)
  /\ (forall meta,
         PepHintClassedMetadata_init args kw = Ok meta ->
         args = [] /\ pep_sign meta = ONone).
Proof.
  assert (Hpositional :
    args <> [] -> PepHintClassedMetadata_init args kw = Raise TypeError).
  { intros Hargs. destruct args as [ | arg args']; [congruence | ].
    unfold PepHintClassedMetadata_init, PepHintMetadata_init.
    destruct (check_call _ _ _) as [u | e] eqn:Hcheck; simpl.
    - rewrite (bind_param_positional_and_keyword 0 "pep_sign" None
                 (arg :: args') (dict_set "pep_sign" ONone kw) arg ONone
                 eq_refl (dict_get_dict_set _ _ _)).
      reflexivity.
    - unfold check_call in Hcheck.
      destruct (_ && _); [discriminate Hcheck | ].
      injection Hcheck as <-. reflexivity. }
  split; [exact Hpositional | ].
  intros meta H.
  destruct args as [ | arg args'].
  - split; [reflexivity | ].
    unfold PepHintClassedMetadata_init, PepHintMetadata_init in H.
    bind_inversion H.
    injection H as <-. simpl.
    match goal with
    | Hbind : bind_param 0 "pep_sign" None [] _ = Ok ?v |- ?v = ONone =>
        unfold bind_param in Hbind; simpl in Hbind;
          rewrite dict_get_dict_set in Hbind; injection Hbind as <-
    end.
    reflexivity.
  - rewrite Hpositional in H by discriminate. discriminate H.
Qed.

(** X18: [PepHintClassedMetadata] ignores the keyword [pep_sign] of its
    caller: passing any object for it gives the result of not passing
    it. *)
Theorem classed_metadata_ignores_pep_sign
    (args : list pyobj) (kw : kwargs) (sign : pyobj) :
  PepHintClassedMetadata_init args (dict_set "pep_sign" sign kw)
  = PepHintClassedMetadata_init args kw.
Proof.
  unfold PepHintClassedMetadata_init.
  rewrite dict_set_dict_set. reflexivity.
Qed.

Lemma hint_metadata_fields_are_typed_witness :
  PepHintMetadata_init
    [OType "List"]
    [("piths_unsatisfied_meta",
      OTuple [OUnsatisfied {| pith := PyInt 7;
                              exception_str_match_regexes := PyTuple [];
                              exception_str_not_match_regexes :=
                                PyTuple [] |}]);
     ("type_origin", OType "list")]
  = Ok {| pep_sign := OType "List";
          is_supported := OBool true;
          is_pep484_generic := OBool false;
          is_typevared := OBool false;
          piths_satisfied := OTuple [];
          piths_unsatisfied_meta :=
            OTuple [OUnsatisfied {| pith := PyInt 7;
                                    exception_str_match_regexes := PyTuple [];
                                    exception_str_not_match_regexes :=
                                      PyTuple [] |}];
          type_origin := OType "list" |}
  /\ tuple_of_unsatisfied
       (OTuple [OUnsatisfied {| pith := PyInt 7;
                                exception_str_match_regexes := PyTuple [];
                                exception_str_not_match_regexes :=
                                  PyTuple [] |}]).
Proof.
  split; [reflexivity | ].
  apply (hint_metadata_fields_are_typed
           [OType "List"]
           [("piths_unsatisfied_meta",
             OTuple [OUnsatisfied {| pith := PyInt 7;
                                     exception_str_match_regexes :=
                                       PyTuple [];
                                     exception_str_not_match_regexes :=
                                       PyTuple [] |}]);
            ("type_origin", OType "list")]
           _ eq_refl).
Defined.

Lemma classed_metadata_pep_sign_is_None_witness :
  [OType "dict"] <> []
  /\ PepHintClassedMetadata_init [OType "dict"] [] = Raise TypeError.
Proof.
  split; [discriminate | ].
  apply (proj1 (classed_metadata_pep_sign_is_None [OType "dict"] [])).
  discriminate.
Defined.

(** Passed by keyword, the same arguments are accepted. *)
Example classed_metadata_by_keyword :
  PepHintClassedMetadata_init []
    [("pep_sign", OType "dict"); ("type_origin", OType "dict")]
  = Ok {| pep_sign := ONone;
          is_supported := OBool true;
          is_pep484_generic := OBool false;
          is_typevared := OBool false;
          piths_satisfied := OTuple [];
          piths_unsatisfied_meta := OTuple [];
          type_origin := OType "dict" |}.
Proof. reflexivity. Qed.

(** A keyword that names no parameter is a [TypeError]. *)
Example hint_metadata_unknown_keyword :
  PepHintMetadata_init [OType "List"] [("is_pep585", OBool true)]
  = Raise TypeError.
Proof. reflexivity. Qed.

End HintMetadataFacts.

(** ** The exception hierarchy, continued *)

Section HierarchyFacts.

Import Roar RoarMore.

Lemma forall_classes2_spec (P : cls -> cls -> bool) :
  forall_classes2 P = true -> forall c d, P c d = true.
Proof.
  unfold forall_classes2. intros H c d.
  rewrite forallb_forall in H.
  specialize (H c (all_classes_complete c)).
  rewrite forallb_forall in H.
  exact (H d (all_classes_complete d)).
Qed.

Lemma forall_classes3_spec (P : cls -> cls -> cls -> bool) :
  forall_classes3 P = true -> forall c d e, P c d e = true.
Proof.
  unfold forall_classes3. intros H c.
  rewrite forallb_forall in H.
  apply forall_classes2_spec, H, all_classes_complete.
Qed.

(** X19: every class that [roar.py] declares, except [BeartypeWarning], is
    a subclass of [BeartypeException].  [BeartypeWarning] is a subclass of
    [UserWarning], hence of [Exception], and not of [BeartypeException];
    no subclass of [BeartypeException] is a warning. *)
Theorem declared_classes_are_beartype_exceptions :
  (forall c : cls,
      is_builtin c = false ->
      c <> BeartypeWarning ->
      issubclass c BeartypeException = true)
  /\ issubclass BeartypeWarning UserWarning = true
  /\ issubclass BeartypeWarning Exception = true
  /\ issubclass BeartypeWarning BeartypeException = false
  /\ (forall c : cls,
         issubclass c BeartypeException = true ->
         issubclass c Warning = false).
Proof.
  repeat split; try reflexivity.
  - intros c Hbuiltin Hwarning.
    destruct c; try reflexivity; try discriminate Hbuiltin.
    congruence.
  - intros c. destruct c; try reflexivity; discriminate.
Qed.

(** X20: privacy is inherited: every subclass of a private class is
    private.  In particular every subclass of [_BeartypeUtilException] is
    private. *)
Theorem subclass_of_private_is_private (c d : cls) :
  issubclass c d = true ->
  is_private d = true ->
  is_private c = true.
Proof.
  intros Hsub Hprivate.
  assert (H : forall_classes2
                (fun c d => implb (issubclass c d && is_private d)
                              (is_private c)) = true)
    by (vm_compute; reflexivity).
  apply forall_classes2_spec with (c := c) (d := d) in H.
  rewrite Hsub, Hprivate in H. exact H.
Qed.


Lemma subclass_of_private_is_private_witness :
  issubclass _BeartypeUtilCachedFixedListException _BeartypeUtilException
  = true
  /\ is_private _BeartypeUtilException = true
  /\ is_private _BeartypeUtilCachedFixedListException = true.
Proof.
  split; [reflexivity | split; [reflexivity | ]].
  apply (subclass_of_private_is_private
           _BeartypeUtilCachedFixedListException _BeartypeUtilException);
    reflexivity.
Defined.


Lemma declared_classes_are_beartype_exceptions_witness :
  is_builtin BeartypeDecorHintPep563Exception = false
  /\ BeartypeDecorHintPep563Exception <> BeartypeWarning
  /\ issubclass BeartypeDecorHintPep563Exception BeartypeException = true.
Proof.
  split; [reflexivity | split; [discriminate | ]].
  apply (proj1 declared_classes_are_beartype_exceptions
           BeartypeDecorHintPep563Exception);
    [reflexivity | discriminate].
Defined.

End HierarchyFacts.

(** ** The names of binary dunder methods *)

Section DunderNames.

Import DataFunc.

Lemma length_append (a b : string) :
  String.length (a ++ b) = String.length a + String.length b.
Proof.
  induction a as [ | c a IH]; simpl; [reflexivity | ].
  rewrite IH. reflexivity.
Qed.

Lemma append_inv_tail (a b c : string) : a ++ c = b ++ c -> a = b.
Proof.
  revert b. induction a as [ | x a IH]; intros [ | y b] H; simpl in H.
  - reflexivity.
  - apply (f_equal String.length) in H. simpl in H.
    rewrite length_append in H. lia.
  - apply (f_equal String.length) in H. simpl in H.
    rewrite length_append in H. lia.
  - injection H as -> H. f_equal. exact (IH b H).
Qed.

Lemma is_method_name_dunder_binary_In (name : string) :
  is_method_name_dunder_binary name = true
  <-> In name METHOD_NAMES_DUNDER_BINARY.
Proof.
  unfold is_method_name_dunder_binary. rewrite existsb_exists. split.
  - intros (x & Hin & Heq). apply String.eqb_eq in Heq. subst x. exact Hin.
  - intros Hin. exists name. split; [exact Hin | apply String.eqb_refl].
Qed.

(** X22: the set of names is closed under the in-place operators: whenever
    it holds the in-place name [__i<op>__] of an operator, it holds the
    plain name [__<op>__] and the reflected name [__r<op>__] as well. *)
Theorem inplace_name_has_plain_and_reflected (op : string) :
  is_method_name_dunder_binary ("__i" ++ op ++ "__") = true ->
  is_method_name_dunder_binary ("__" ++ op ++ "__") = true
  /\ is_method_name_dunder_binary ("__r" ++ op ++ "__") = true.
Proof.
  intros H. apply is_method_name_dunder_binary_In in H.
  simpl in H.
  repeat match type of H with
         | _ \/ _ => destruct H as [H | H]
         end;
    try contradiction;
    try discriminate H;
    injection H as H;
    match type of H with
    | ?lit = op ++ "__" =>
        let name := eval cbv in
          (substring 0 (String.length lit - 2) lit) in
        apply (append_inv_tail name op "__") in H
    end;
    subst op; split; reflexivity.
Qed.

Lemma inplace_name_has_plain_and_reflected_witness :
  is_method_name_dunder_binary ("__i" ++ "matmul" ++ "__") = true
  /\ is_method_name_dunder_binary ("__" ++ "matmul" ++ "__") = true
  /\ is_method_name_dunder_binary ("__r" ++ "matmul" ++ "__") = true.
Proof.
  split; [reflexivity | ].
  apply (inplace_name_has_plain_and_reflected "matmul").
  reflexivity.
Defined.

End DunderNames.

(** ** Decorator closures are nested *)

Section DecoratorClosures.

Import UtilFuncTest UtilFuncTestMore Examples MoreExamples.

Variable get_func_codeobj_or_none : pyobject -> option codeobject.
Variable get_func_codeobj_name : codeobject -> result string.
Variable CONTEXTLIB_CONTEXTMANAGER_CODEOBJ_NAME : string.
Variable IS_PYTHON_AT_MOST_3_10 : bool.
Variable is_func_arg_variadic_positional : codeobject -> result bool.
Variable is_func_arg_variadic_keyword : codeobject -> result bool.

Lemma closure_then_nested (func : pyobject) :
  is_func_closure func = Ok true -> is_func_nested func = Ok true.
Proof.
  intros Hclosure. unfold is_func_nested. rewrite Hclosure.
  unfold is_func_closure in Hclosure.
  destruct (py_assert (py_callable func)) as [u | e];
    [reflexivity | discriminate Hclosure].
Qed.

(** X23: an object that [is_func_closure_isomorphic] or
    [is_func_contextlib_contextmanager] answers with [True] is a closure
    and a nested callable: [is_func_closure] and [is_func_nested] both
    return [True] on it. *)
Theorem decorator_closure_is_closure_and_nested (func : pyobject) :
  is_func_closure_isomorphic get_func_codeobj_or_none
    is_func_arg_variadic_positional is_func_arg_variadic_keyword func
  = Ok true
  \/ is_func_contextlib_contextmanager get_func_codeobj_or_none
       get_func_codeobj_name CONTEXTLIB_CONTEXTMANAGER_CODEOBJ_NAME
       IS_PYTHON_AT_MOST_3_10 func
     = Ok true ->
  is_func_closure func = Ok true /\ is_func_nested func = Ok true.
Proof.
  intros H.
  assert (Hclosure : is_func_closure func = Ok true).
  { destruct H as [H | H].
    - unfold is_func_closure_isomorphic in H.
      destruct (is_func_closure func) as [[ | ] | e];
        [reflexivity | discriminate H | discriminate H].
    - unfold is_func_contextlib_contextmanager in H.
      destruct IS_PYTHON_AT_MOST_3_10; simpl in H; [discriminate H | ].
      destruct (is_func_closure func) as [[ | ] | e];
        [reflexivity | discriminate H | discriminate H]. }
  split; [exact Hclosure | exact (closure_then_nested func Hclosure)].
Qed.

End DecoratorClosures.

Section FurtherWitnesses.

Import UtilFuncTest UtilFuncTestMore Examples MoreExamples.
Import DataHintPepMetaMore.

Lemma decorator_closure_is_closure_and_nested_witness :
  is_func_contextlib_contextmanager
    (always_code contextmanager_helper_code)
    (fun codeobj => Ok ("contextmanager.<locals>." ++ co_name codeobj))
    "contextmanager.<locals>.helper" false contextmanager_helper
  = Ok true
  /\ is_func_closure contextmanager_helper = Ok true
  /\ is_func_nested contextmanager_helper = Ok true.
Proof.
  split; [reflexivity | ].
  apply (decorator_closure_is_closure_and_nested
           (always_code contextmanager_helper_code)
           (fun codeobj => Ok ("contextmanager.<locals>." ++ co_name codeobj))
           "contextmanager.<locals>.helper" false
           has_varargs has_varkeywords contextmanager_helper).
  right. reflexivity.
Defined.

(** A builtin has no code object: [__name__] is not read. *)
Lemma is_func_lambda_outcome_witness :
  never_code c_builtin = None
  /\ is_func_lambda never_code no_name c_builtin = Ok false.
Proof.
  split; [reflexivity | ].
  apply (proj1 (is_func_lambda_outcome never_code no_name c_builtin)).
  reflexivity.
Defined.

(** A code object without [__name__]. *)
Example is_func_lambda_without_name :
  is_func_lambda (always_code lambda_code) no_name plain_function
  = Raise AttributeError.
Proof. reflexivity. Qed.

Lemma hint_metadata_pep_sign_mandatory_witness :
  dict_get "pep_sign" [("type_origin", OType "list")] = None
  /\ PepHintMetadata_init [] [("type_origin", OType "list")]
     = Raise TypeError.
Proof.
  split; [reflexivity | ].
  apply (proj1 hint_metadata_pep_sign_mandatory
           [("type_origin", OType "list")]).
  reflexivity.
Defined.

End FurtherWitnesses.
